(** * gptme.tools: the command dispatcher and its executors

    A shallow embedding of [gptme/tools/__init__.py]: the save and load
    handlers, the line-command dispatcher, the shell executor and the
    statement-by-statement Python executor, together with the part of
    Python's string library they call.

    Conventions.
    - A Python [str] is a Rocq [string]; a character stands for the code
      point of the same number, so the model covers text whose code points
      are below 256.
    - A generator is run to exhaustion: its meaning is the list of the
      messages it yields, the world it leaves behind and how it ended
      (returned, or raised).
    - What the module takes from outside (the Python parser and evaluator,
      [subprocess.run], [termcolor.colored], whether a file can be opened
      for writing) is a record of operations, the [Host]; [MiniPy]
      instantiates it with a fragment of Python.
    - The functions of the module find the names they use ([Message],
      [ast], [str], ...) in the namespace of the module, and the Python
      executor runs the code of the user in that same namespace. A call is
      described from a namespace in which these names are what the module
      bound them to, and as far as the first statement that rebinds one of
      them: there the run ends as [Unmodelled]. *)

From Stdlib Require Import ZArith Ascii String List DecimalString Lia.
From stdpp Require Import base gmap strings list.

(** ** Python's [str] methods *)

Module PyStr.

Definition code (c : ascii) : N := N_of_ascii c.

(** [str.isspace] on one character: TAB..CR, FS..US, SPACE, NEL, NBSP. *)
Definition isspace (c : ascii) : bool :=
  let n := code c in
  ((9 <=? n) && (n <=? 13) || (28 <=? n) && (n <=? 32)
   || (n =? 133) || (n =? 160))%N.

(** Characters at which [str.splitlines] breaks (other than CR LF). *)
Definition islinebreak (c : ascii) : bool :=
  let n := code c in
  ((10 <=? n) && (n <=? 13) || (28 <=? n) && (n <=? 30) || (n =? 133))%N.

Definition isempty (s : string) : bool :=
  match s with EmptyString => true | String _ _ => false end.

Fixpoint lstrip (s : string) : string :=
  match s with
  | EmptyString => EmptyString
  | String c r => if isspace c then lstrip r else s
  end.

Fixpoint rstrip (s : string) : string :=
  match s with
  | EmptyString => EmptyString
  | String c r =>
      let r' := rstrip r in
      if isspace c && isempty r' then EmptyString else String c r'
  end.

(** [s.strip()] *)
Definition strip (s : string) : string := rstrip (lstrip s).

(** [s.startswith(p)] *)
Fixpoint startswith (s p : string) {struct p} : bool :=
  match p, s with
  | EmptyString, _ => true
  | String a p', String b s' => Ascii.eqb a b && startswith s' p'
  | String _ _, EmptyString => false
  end.

(** [s[n:]] for [n >= 0] *)
Fixpoint slice_from (n : nat) (s : string) : string :=
  match n, s with
  | O, _ => s
  | S n', String _ r => slice_from n' r
  | S _, EmptyString => EmptyString
  end.

(** [s.endswith(p)] *)
Definition endswith (s p : string) : bool :=
  (String.length p <=? String.length s)%nat
  && String.eqb (slice_from (String.length s - String.length p) s) p.

Definition lower_char (c : ascii) : ascii :=
  let n := code c in
  if ((65 <=? n) && (n <=? 90)
      || (192 <=? n) && (n <=? 222) && negb (n =? 215))%N
  then ascii_of_N (n + 32) else c.

(** [s.lower()] *)
Fixpoint lower (s : string) : string :=
  match s with
  | EmptyString => EmptyString
  | String c r => String (lower_char c) (lower r)
  end.

(** [x in l] for a list of strings *)
Definition str_in (x : string) (l : list string) : bool :=
  existsb (String.eqb x) l.

(** [s.split(c)] for a one-character separator *)
Fixpoint split (c : ascii) (s : string) : list string :=
  match s with
  | EmptyString => [EmptyString]
  | String a r =>
      if Ascii.eqb a c then EmptyString :: split c r
      else match split c r with
           | h :: t => String a h :: t
           | [] => [String a EmptyString]
           end
  end.

(** [sep.join(l)] *)
Fixpoint join (sep : string) (l : list string) : string :=
  match l with
  | [] => EmptyString
  | [x] => x
  | x :: t => x +:+ sep +:+ join sep t
  end.

Definition CR : ascii := ascii_of_N 13.
Definition LF : ascii := ascii_of_N 10.
Definition nl : string := String LF EmptyString.

(** [s.splitlines(keepends)]; [cur] is the line being read, reversed. *)
Fixpoint splitlines_go (keep : bool) (cur : string) (s : string)
  : list string :=
  let close (e : string) :=
    String.rev_app cur (if keep then e else EmptyString) in
  match s with
  | EmptyString => if isempty cur then [] else [String.rev cur]
  | String c r =>
      if Ascii.eqb c CR then
        match r with
        | String d r' =>
            if Ascii.eqb d LF
            then close (String CR nl) :: splitlines_go keep EmptyString r'
            else close (String CR EmptyString)
                   :: splitlines_go keep EmptyString r
        | EmptyString => [close (String CR EmptyString)]
        end
      else if islinebreak c
      then close (String c EmptyString) :: splitlines_go keep EmptyString r
      else splitlines_go keep (String c cur) r
  end.

Definition splitlines (s : string) : list string :=
  splitlines_go false EmptyString s.

(** [l[1:-2]] *)
Definition slice_1_m2 {A} (l : list A) : list A :=
  drop 1 (take (length l - 2) l).

(** [str(n)] for an [int] *)
Definition str_int (n : Z) : string :=
  NilZero.string_of_int (Z.to_int n).

(** [textwrap.indent(text, prefix)]: the prefix goes before every line
    that is not made of white space only. *)
Definition indent (text pre : string) : string :=
  String.concat EmptyString
    (map (fun line => if isempty (strip line) then line else pre +:+ line)
         (splitlines_go true EmptyString text)).

Fixpoint contains_char (c : ascii) (s : string) : bool :=
  match s with
  | EmptyString => false
  | String a r => Ascii.eqb a c || contains_char c r
  end.

Definition hex_digit (n : N) : ascii :=
  ascii_of_N (if (n <? 10)%N then 48 + n else 87 + n).

Definition isprintable (c : ascii) : bool :=
  let n := code c in
  ((32 <=? n) && (n <=? 126) || (161 <=? n) && negb (n =? 173))%N.

Definition backslash : ascii := ascii_of_N 92.

(** One character of [repr(s)], inside quotes [q]. *)
Definition repr_char (q c : ascii) : string :=
  let n := code c in
  if Ascii.eqb c q || Ascii.eqb c backslash
  then String backslash (String c EmptyString)
  else if (n =? 9)%N then String backslash "t"
  else if (n =? 10)%N then String backslash "n"
  else if (n =? 13)%N then String backslash "r"
  else if isprintable c then String c EmptyString
  else String backslash
         (String "x" (String (hex_digit (n / 16)) (String (hex_digit (n mod 16)) EmptyString))).

Fixpoint repr_body (q : ascii) (s : string) : string :=
  match s with
  | EmptyString => EmptyString
  | String c r => repr_char q c +:+ repr_body q r
  end.

Definition squote : ascii := ascii_of_N 39.
Definition dquote : ascii := ascii_of_N 34.

(** [repr(s)] for a [str]: single quotes, unless the text has a single
    quote and no double quote. *)
Definition repr_str (s : string) : string :=
  let q := if contains_char squote s && negb (contains_char dquote s)
           then dquote else squote in
  String q (repr_body q s +:+ String q EmptyString).

End PyStr.

Import PyStr.

(** ** Replies, the world and generators *)

(** [Message(role, content)] of [gptme.message]. *)
Record Message := { role : string; content : string }.

(** What reaches the terminal. *)
Inductive Event :=
| Printed (text : string)
| Prompted (prompt : string).

(** A raised exception: its class, the classes it inherits from, [str(e)]. *)
Record Exn := { exn_class : string; exn_bases : list string; exn_text : string }.

(** [isinstance(e, cls)], as an [except cls] clause tests it. *)
Definition isinstance_exn (e : Exn) (cls : string) : bool :=
  str_in cls (exn_class e :: exn_bases e).

Definition std_exn (cls : string) (bases : list string) (text : string) : Exn :=
  {| exn_class := cls;
     exn_bases := bases ++ ["Exception"; "BaseException"; "object"];
     exn_text := text |}.

(** How a run ends. [Unmodelled] is the end of a run that has left what
    is described here: a statement of the embedded interpreter has rebound
    a name that the executor itself looks up, and what the executor does
    from there on depends on the object the name was given. *)
Inductive Outcome (A : Type) :=
| Returned (a : A)
| Raised (e : Exn)
| Unmodelled.
Arguments Returned {A} a.
Arguments Raised {A} e.
Arguments Unmodelled {A}.

(** The state the module runs in. [redirect] holds the buffers installed by
    [redirect_stdout], innermost first; [py] is the state of the embedded
    interpreter, with the environment [locals_]. *)
Record World (Py : Type) := {
  stdin : list string;
  console : list Event;
  redirect : list string;
  files : gmap string string;
  py : Py }.
Arguments stdin {Py} w.
Arguments console {Py} w.
Arguments redirect {Py} w.
Arguments files {Py} w.
Arguments py {Py} w.

(** The result of running a generator to its end. *)
Record Run (Py A : Type) := {
  yielded : list Message;
  after : World Py;
  outcome : Outcome A }.
Arguments yielded {Py A} r.
Arguments after {Py A} r.
Arguments outcome {Py A} r.

Definition Gen (Py A : Type) : Type := World Py -> Run Py A.

Section Generators.
Context {Py : Type}.
Abbreviation W := (World Py).

Definition ret {A} (a : A) : Gen Py A :=
  fun w => {| yielded := []; after := w; outcome := Returned a |}.

Definition bind {A B} (m : Gen Py A) (k : A -> Gen Py B) : Gen Py B :=
  fun w =>
    let r := m w in
    match outcome r with
    | Returned a =>
        let r' := k a (after r) in
        {| yielded := yielded r ++ yielded r';
           after := after r'; outcome := outcome r' |}
    | Raised e =>
        {| yielded := yielded r; after := after r; outcome := Raised e |}
    | Unmodelled =>
        {| yielded := yielded r; after := after r; outcome := Unmodelled |}
    end.

(** [yield m] *)
Definition yield (m : Message) : Gen Py unit :=
  fun w => {| yielded := [m]; after := w; outcome := Returned tt |}.

(** [raise e] *)
Definition raise {A} (e : Exn) : Gen Py A :=
  fun w => {| yielded := []; after := w; outcome := Raised e |}.

(** [try: body / except cls as e: handler e] *)
Definition try_except {A} (body : Gen Py A) (cls : string)
    (handler : Exn -> Gen Py A) : Gen Py A :=
  fun w =>
    let r := body w in
    match outcome r with
    | Returned _ => r
    | Raised e =>
        if isinstance_exn e cls then
          let r' := handler e (after r) in
          {| yielded := yielded r ++ yielded r';
             after := after r'; outcome := outcome r' |}
        else r
    | Unmodelled => r
    end.

(** An operation of the outside world that yields nothing. *)
Definition effect {A} (f : W -> W * Outcome A) : Gen Py A :=
  fun w => let '(w', o) := f w in
           {| yielded := []; after := w'; outcome := o |}.

Definition modify (f : W -> W) : Gen Py unit :=
  fun w => {| yielded := []; after := f w; outcome := Returned tt |}.

Definition get_world : Gen Py W :=
  fun w => {| yielded := []; after := w; outcome := Returned w |}.

(** Text written to [sys.stdout]: into the innermost buffer when one is
    installed, to the terminal otherwise. *)
Definition write_stdout (ev : string -> Event) (text : string) (w : W) : W :=
  match redirect w with
  | buf :: rest =>
      {| stdin := stdin w; console := console w;
         redirect := (buf +:+ text) :: rest;
         files := files w; py := py w |}
  | [] =>
      {| stdin := stdin w; console := console w ++ [ev text];
         redirect := []; files := files w; py := py w |}
  end.

(** [print(text)] *)
Definition print (text : string) : Gen Py unit :=
  modify (write_stdout Printed (text +:+ nl)).

Definition set_stdin (lines : list string) (w : W) : W :=
  {| stdin := lines; console := console w; redirect := redirect w;
     files := files w; py := py w |}.

(** [input(prompt)]: the prompt is written, then a line is read. *)
Definition input (prompt : string) : Gen Py string :=
  fun w =>
    let w1 := write_stdout Prompted prompt w in
    match stdin w1 with
    | line :: rest =>
        {| yielded := []; after := set_stdin rest w1; outcome := Returned line |}
    | [] =>
        {| yielded := []; after := w1;
           outcome := Raised (std_exn "EOFError" [] "EOF when reading a line") |}
    end.

(** [os.path.exists(filename)] *)
Definition path_exists (filename : string) : Gen Py bool :=
  fun w => {| yielded := []; after := w;
              outcome := Returned (bool_decide (is_Some (files w !! filename))) |}.

Definition no_such_file (filename : string) : Exn :=
  std_exn "FileNotFoundError" ["OSError"]
    ("[Errno 2] No such file or directory: " +:+ repr_str filename).

(** [with open(filename, "r") as file: data = file.read()] *)
Definition read_file (filename : string) : Gen Py string :=
  fun w =>
    {| yielded := []; after := w;
       outcome := match files w !! filename with
                  | Some data => Returned data
                  | None => Raised (no_such_file filename)
                  end |}.

Definition push_buffer (w : W) : W :=
  {| stdin := stdin w; console := console w; redirect := EmptyString :: redirect w;
     files := files w; py := py w |}.

Definition pop_buffer (w : W) : W :=
  {| stdin := stdin w; console := console w; redirect := tail (redirect w);
     files := files w; py := py w |}.

(** [buf.getvalue()] of the innermost buffer *)
Definition getvalue : Gen Py string :=
  fun w => {| yielded := []; after := w;
              outcome := Returned (hd EmptyString (redirect w)) |}.

(** [with io.StringIO() as buf, redirect_stdout(buf): body]; the buffer is
    removed again however the body ends. *)
Definition with_redirect_stdout {A} (body : Gen Py A) : Gen Py A :=
  fun w =>
    let r := body (push_buffer w) in
    {| yielded := yielded r; after := pop_buffer (after r);
       outcome := outcome r |}.

End Generators.

Declare Scope gen_scope.
Delimit Scope gen_scope with gen.
Notation "x <- m ;; k" := (bind m (fun x => k))
  (at level 100, m at next level, right associativity) : gen_scope.
Notation "m ;; k" := (bind m (fun _ => k))
  (at level 100, right associativity) : gen_scope.

(** ** What the module takes from outside *)

(** The classes of statement nodes of Python's [ast] module. *)
Inductive StmtClass :=
| FunctionDef | AsyncFunctionDef | ClassDef | Return | Delete
| Assign | TypeAlias | AugAssign | AnnAssign
| For | AsyncFor | While | If | With | AsyncWith | Match
| Raise | Try | TryStar | Assert
| Import | ImportFrom | Global | Nonlocal
| Expr | Pass | Break | Continue.

Global Instance StmtClass_eq_dec : EqDecision StmtClass.
Proof. solve_decision. Defined.

(** What [subprocess.run(..., capture_output=True, text=True)] returns. *)
Record CompletedProcess := { stdout : string; stderr : string; returncode : Z }.

(** The names the executor of Python looks up while it runs the statements
    and builds its reply. It finds them in the namespace of the module,
    and that is the namespace [exec] and [eval] write to ([locals_] is
    [locals()] at the level of the module). *)
Definition executor_names : list string :=
  ["ast"; "isinstance"; "io"; "redirect_stdout"; "exec"; "globals"; "locals_";
   "eval"; "str"; "Exception"; "Message"].

(** The operations of the host. A parse is a function of the source alone;
    [exec], [eval] and the subprocess act on the whole world and may raise.
    The truth value and the text of a result are taken as functions of the
    value: results whose [__bool__] or [__str__] raise or print are outside
    the model. [str_value] is [str(result)] for the [str] the module starts
    with: [names] tells whether a statement has given [str], or another of
    the [executor_names], a different object. *)
Record Host := {
  PyState : Type;
  Value : Type;
  Stmt : Type;
  (** [ast.parse(code).body] *)
  ast_parse : string -> Outcome (list Stmt);
  (** [ast.unparse(stmt)] *)
  ast_unparse : Stmt -> string;
  (** the class of the node, which [isinstance] tests *)
  stmt_class : Stmt -> StmtClass;
  (** [exec(source, globals(), locals_)] *)
  py_exec : string -> World PyState -> World PyState * Outcome unit;
  (** [eval(source, globals(), locals_)] *)
  py_eval : string -> World PyState -> World PyState * Outcome Value;
  (** the truth value of a result, as [if result:] takes it *)
  truth : Value -> bool;
  (** [str(result)] *)
  str_value : Value -> string;
  (** [subprocess.run(cmd, capture_output=True, shell=True, text=True)] *)
  subprocess_run :
    string -> World PyState -> World PyState * Outcome CompletedProcess;
  (** [termcolor.colored(text, color, on_color, attrs)] *)
  colored : string -> string -> option string -> list string -> string;
  (** what the [executor_names] stand for in a namespace *)
  Names : Type;
  Names_dec : forall a b : Names, {a = b} + {a <> b};
  names : PyState -> Names;
  (** the error with which [open(filename, "w")] fails, if it does, given
      the files there are: the name is empty, a directory of the path is
      missing, the path is a directory or may not be written *)
  open_error : string -> gmap string string -> option Exn }.

(** ** The module *)

Section Tools.
Context {H : Host}.
Local Open Scope gen_scope.

Abbreviation G := (Gen (PyState H)).

(** U+26A0 U+FE0F, as the bytes the terminal receives. *)
Definition EMOJI_WARN : string :=
  String (ascii_of_N 226) (String (ascii_of_N 154) (String (ascii_of_N 160)
    (String (ascii_of_N 239) (String (ascii_of_N 184) (String (ascii_of_N 143)
       EmptyString))))).

Definition fence : string := "```".

Definition _print_preview : G unit :=
  print (colored H "Preview" "white" None ["bold"]).

(** [with open(filename, "w") as file: file.write(content)] *)
Definition write_file (filename content : string) : G unit :=
  fun w =>
    match open_error H filename (files w) with
    | Some e => {| yielded := []; after := w; outcome := Raised e |}
    | None =>
        {| yielded := [];
           after := {| stdin := stdin w; console := console w;
                       redirect := redirect w;
                       files := <[filename := content]> (files w);
                       py := py w |};
           outcome := Returned tt |}
    end.

(** [confirm.lower() in tokens], for an answer that was read. *)
Definition answered (tokens : list string) (confirm : option string) : bool :=
  match confirm with
  | Some c => str_in (lower c) tokens
  | None => false
  end.

(** What [_execute_save] does at a line that is a save directive. *)
Definition save_directive (line prev_codeblock : string) : G unit :=
  filename <- match split ":" line !! 1%nat with
              | Some part => ret (strip part)
              | None => raise (std_exn "IndexError" ["LookupError"]
                                 "list index out of range")
              end ;;
  let content := join nl (slice_1_m2 (split LF prev_codeblock)) in
  _print_preview ;;
  print ("# filename: " +:+ filename) ;;
  print (indent content "> ") ;;
  confirm <- input ("Save to " +:+ filename +:+ "? (Y/n) ") ;;
  (if str_in (lower confirm) ["y"; "Y"; ""; "yes"]
   then write_file filename content
   else ret tt) ;;
  yield (Build_Message "system" ("Saved to " +:+ filename)).

(** The loop of [_execute_save] over the lines, with its two variables. *)
Fixpoint save_lines (lines : list string) (prev_codeblock codeblock : string)
  : G unit :=
  match lines with
  | [] => ret tt
  | line :: rest =>
      (if startswith (strip line) "// save:"
       then save_directive line prev_codeblock
       else ret tt) ;;
      if startswith line fence || negb (isempty codeblock) then
        let codeblock := codeblock +:+ line +:+ nl in
        if startswith codeblock fence && endswith (strip codeblock) fence
        then save_lines rest codeblock EmptyString
        else save_lines rest prev_codeblock codeblock
      else save_lines rest prev_codeblock codeblock
  end.

Definition _execute_save (text : string) (ask : bool) : G unit :=
  save_lines (splitlines text) EmptyString EmptyString.

Definition _execute_load (filename : string) : G unit :=
  found <- path_exists filename ;;
  (if negb found
   then yield (Build_Message "system"
                 ("Tried to load file '" +:+ filename
                  +:+ "', but it does not exist."))
   else ret tt) ;;
  confirm <- input ("Load from " +:+ filename +:+ "? (Y/n) ") ;;
  if str_in (lower confirm) ["y"; "Y"; ""; "yes"] then
    data <- read_file filename ;;
    yield (Build_Message "system"
             ("# filename: " +:+ filename +:+ nl +:+ nl +:+ data))
  else ret tt.

Definition _execute_shell (cmd : string) (ask : bool) : G unit :=
  let cmd := strip cmd in
  let cmd := if startswith cmd "$ "
             then slice_from (String.length "$ ") cmd else cmd in
  confirm <- (if ask then
                _print_preview ;;
                print ("$ " +:+ colored H cmd "light_yellow" None []) ;;
                c <- input (colored H
                              (EMOJI_WARN +:+ " Execute command in terminal? (Y/n) ")
                              "red" (Some "on_light_yellow") []) ;;
                ret (Some c)
              else ret None) ;;
  if negb ask || answered ["y"; "Y"; ""; "yes"] confirm then
    p <- effect (subprocess_run H cmd) ;;
    let stdout := strip (stdout p) in
    let stderr := strip (stderr p) in
    let msg := "Ran command:" +:+ nl +:+ fence +:+ "bash" +:+ nl
               +:+ cmd +:+ nl +:+ fence +:+ nl +:+ nl in
    let msg := if negb (isempty stdout)
               then msg +:+ "Output:" +:+ nl +:+ nl +:+ fence +:+ "bash" +:+ nl
                        +:+ stdout +:+ nl +:+ fence +:+ nl +:+ nl
               else msg in
    let msg := if negb (isempty stderr)
               then msg +:+ "Error:" +:+ nl +:+ nl +:+ fence +:+ "bash" +:+ nl
                        +:+ stderr +:+ nl +:+ fence +:+ nl +:+ nl
               else msg in
    let msg := if isempty stdout && isempty stderr
               then msg +:+ "No output" +:+ nl +:+ nl
               else msg in
    let msg := if negb (returncode p =? 0)%Z
               then msg +:+ "Return code: " +:+ str_int (returncode p)
               else msg +:+ "Ran successfully" in
    yield (Build_Message "system" msg)
  else ret tt.

(** The test of [_execute_python] that sends a statement to [exec]. *)
Definition isinstance (stmt : Stmt H) (cls : StmtClass) : bool :=
  bool_decide (stmt_class H stmt = cls).

Definition uses_exec (stmt : Stmt H) : bool :=
  isinstance stmt Assign
  || isinstance stmt AnnAssign
  || isinstance stmt Assert
  || isinstance stmt ClassDef
  || isinstance stmt FunctionDef
  || isinstance stmt Import
  || isinstance stmt ImportFrom
  || isinstance stmt If
  || isinstance stmt For
  || isinstance stmt While
  || isinstance stmt With
  || isinstance stmt Try
  || isinstance stmt AsyncFor
  || isinstance stmt AsyncFunctionDef
  || isinstance stmt AsyncWith.

(** The variable [result]: captured text after [exec], a value after [eval]. *)
Inductive Result :=
| Captured (text : string)
| Evaluated (v : Value H).

Definition result_truth (r : Result) : bool :=
  match r with
  | Captured text => negb (isempty text)
  | Evaluated v => truth H v
  end.

Definition result_str (r : Result) : string :=
  match r with
  | Captured text => text
  | Evaluated v => str_value H v
  end.

(** A step that runs code of the user. What the executor looks up after
    it ([str] and [Exception] for this statement, [ast], [isinstance],
    [io], [redirect_stdout], [exec], [eval], [globals], [locals_] for the
    next one, [Message] for the reply) it finds in the namespace the step
    leaves. When the step, however it ends, leaves one of these names with
    a different object, the run is [Unmodelled] from there. *)
Definition keeping_names {A} (m : G A) : G A :=
  fun w =>
    let r := m w in
    if Names_dec H (names H (py (after r))) (names H (py w)) then r
    else {| yielded := yielded r; after := after r; outcome := Unmodelled |}.

(** The [try] block of one statement; it returns the new [output]. *)
Definition run_statement (stmt : Stmt H) (stmt_str output : string) : G string :=
  result <- keeping_names
              (if uses_exec stmt then
                 with_redirect_stdout
                   (effect (py_exec H stmt_str) ;;
                    buf <- getvalue ;;
                    ret (Captured (strip buf)))
               else
                 v <- effect (py_eval H stmt_str) ;;
                 ret (Evaluated v)) ;;
  ret (if result_truth result
       then output +:+ result_str result +:+ nl
       else output).

(** The [try] statement of the loop: [inl] is the [output] to go on
    with, [inr] the [output] after an exception, where the loop breaks. *)
Definition try_statement (stmt : Stmt H) (stmt_str output : string)
  : G (string + string) :=
  try_except
    (output <- run_statement stmt stmt_str output ;; ret (inl output))
    "Exception"
    (fun e => ret (inr (output +:+ exn_class e +:+ ": "
                        +:+ exn_text e +:+ nl))).

(** The loop over the statements; the flag is [error_during_execution].
    [ast.unparse] here, [Exception] in [try_statement] and [Message] in the
    reply are the ones the call started with: [run_statement] ends the run
    as [Unmodelled] at the first statement that changes one of them. *)
Fixpoint for_statements (statements : list (Stmt H)) (output : string)
  : G (string * bool) :=
  match statements with
  | [] => ret (output, false)
  | stmt :: rest =>
      let stmt_str := ast_unparse H stmt in
      let output := output +:+ ">>> " +:+ stmt_str +:+ nl in
      r <- try_statement stmt stmt_str output ;;
      match r with
      | inl output => for_statements rest output
      | inr output => ret (output, true)
      end
  end.

Definition _execute_python (code : string) (ask : bool) : G unit :=
  let code := strip code in
  confirm <- (if ask then
                _print_preview ;;
                print (">>> " +:+ colored H code "light_yellow" None []) ;;
                c <- input (colored H
                              (" " +:+ EMOJI_WARN +:+ " Execute Python code? (y/N) ")
                              "red" (Some "on_light_yellow") ["bold"]) ;;
                ret (Some c)
              else ret None) ;;
  if negb ask || answered ["y"; "yes"] confirm then
    parsed <- try_except
                (statements <- (fun w => Build_Run _ _ [] w (ast_parse H code)) ;;
                 ret (Some statements))
                "SyntaxError"
                (fun e => yield (Build_Message "system"
                                   ("SyntaxError: " +:+ exn_text e)) ;;
                          ret None) ;;
    match parsed with
    | None => ret tt
    | Some statements =>
        done <- for_statements statements EmptyString ;;
        let '(output, error_during_execution) := done in
        let output := if error_during_execution : bool
                      then output +:+ "Error during execution, aborting."
                      else output in
        yield (Build_Message "system" output)
    end
  else
    yield (Build_Message "system" "Aborted, user chose not to run command.").

Definition _execute_linecmd (line : string) : G unit :=
  if startswith line "terminal: " then
    let cmd := slice_from (String.length "terminal: ") line in
    _execute_shell cmd true
  else if startswith line "python: " then
    let cmd := slice_from (String.length "python: ") line in
    _execute_python cmd true
  else if startswith (strip line) "// load: " then
    let filename := slice_from (String.length "load: ") line in
    _execute_load filename
  else ret tt.

End Tools.

(** ** A fragment of Python

    Integer and string literals, [None], names, [+], calls with one
    argument, the built-in [print], and the statements [x = e], [x += e] and
    [e], one per line. Source outside the fragment is reported as a syntax
    error, always with the text [invalid syntax]. *)

Module MiniPy.

Inductive value :=
| VNone
| VInt (n : Z)
| VStr (s : string)
| VBuiltin (name : string).

Global Instance value_eq_dec : EqDecision value.
Proof. solve_decision. Defined.

Inductive expr :=
| ENone
| ENum (n : Z)
| EStr (s : string)
| EName (x : string)
| EAdd (l r : expr)
| ECall (f arg : expr).

Inductive stmt :=
| SExpr (e : expr)
| SAssign (x : string) (e : expr)
| SAugAdd (x : string) (e : expr).

(** *** Tokens *)

Inductive token :=
| TNone | TNum (n : Z) | TStr (s : string) | TName (x : string)
| TPlus | TAssign | TPlusAssign | TLParen | TRParen.

(** A token that is being read; the characters are kept reversed. *)
Inductive pending :=
| PNum (digits : string)
| PName (chars : string)
| PStr (quote : ascii) (chars : string).

Definition isdigit (c : ascii) : bool :=
  let n := code c in ((48 <=? n) && (n <=? 57))%N.

Definition isidstart (c : ascii) : bool :=
  let n := code c in
  ((65 <=? n) && (n <=? 90) || (97 <=? n) && (n <=? 122) || (n =? 95))%N.

Definition isidchar (c : ascii) : bool := isidstart c || isdigit c.

Definition isblank (c : ascii) : bool :=
  let n := code c in ((n =? 32) || (n =? 9))%N.

Definition keywords : list string :=
  ["False"; "True"; "and"; "as"; "assert"; "async"; "await"; "break";
   "class"; "continue"; "def"; "del"; "elif"; "else"; "except"; "finally";
   "for"; "from"; "global"; "if"; "import"; "in"; "is"; "lambda";
   "nonlocal"; "not"; "or"; "pass"; "raise"; "return"; "try"; "while";
   "with"; "yield"].

Definition close_pending (p : pending) : option token :=
  match p with
  | PNum digits =>
      let text := String.rev digits in
      n ← Z.of_uint <$> NilZero.uint_of_string text;
      if startswith text "0" && negb (n =? 0)%Z then None else Some (TNum n)
  | PName chars =>
      let x := String.rev chars in
      if String.eqb x "None" then Some TNone
      else if str_in x keywords then None else Some (TName x)
  | PStr _ _ => None
  end.

Fixpoint lex (p : option pending) (s : string) : option (list token) :=
  match s with
  | EmptyString =>
      match p with
      | None => Some []
      | Some q => t ← close_pending q; Some [t]
      end
  | String c r =>
      let fresh : option (list token) :=
        if isblank c then lex None r
        else if isdigit c then lex (Some (PNum (String c EmptyString))) r
        else if isidstart c then lex (Some (PName (String c EmptyString))) r
        else if Ascii.eqb c squote || Ascii.eqb c dquote
             then lex (Some (PStr c EmptyString)) r
        else if Ascii.eqb c "(" then cons TLParen <$> lex None r
        else if Ascii.eqb c ")" then cons TRParen <$> lex None r
        else if Ascii.eqb c "+" then
               match r with
               | String "=" r' => cons TPlusAssign <$> lex None r'
               | _ => cons TPlus <$> lex None r
               end
        else if Ascii.eqb c "=" then
               match r with
               | String "=" _ => None
               | _ => cons TAssign <$> lex None r
               end
        else None in
      match p with
      | None => fresh
      | Some (PStr q chars) =>
          if Ascii.eqb c q then cons (TStr (String.rev chars)) <$> lex None r
          else if isprintable c && negb (Ascii.eqb c backslash)
               then lex (Some (PStr q (String c chars))) r
          else None
      | Some (PNum digits) =>
          if isdigit c then lex (Some (PNum (String c digits))) r
          else if isidstart c then None
          else t ← close_pending (PNum digits); cons t <$> fresh
      | Some (PName chars) =>
          if isidchar c then lex (Some (PName (String c chars))) r
          else t ← close_pending (PName chars); cons t <$> fresh
      end
  end.

Definition tokens (s : string) : option (list token) := lex None s.

(** *** The parser: [sum := post ('+' post)*], [post := prim ('(' sum ')')*] *)

Fixpoint p_sum (fuel : nat) (toks : list token) : option (expr * list token) :=
  match fuel with
  | O => None
  | S f => '(e, r) ← p_post f toks; p_sum_rest f e r
  end
with p_sum_rest (fuel : nat) (lhs : expr) (toks : list token)
  : option (expr * list token) :=
  match fuel with
  | O => None
  | S f =>
      match toks with
      | TPlus :: r => '(e, r') ← p_post f r; p_sum_rest f (EAdd lhs e) r'
      | _ => Some (lhs, toks)
      end
  end
with p_post (fuel : nat) (toks : list token) : option (expr * list token) :=
  match fuel with
  | O => None
  | S f => '(e, r) ← p_prim f toks; p_calls f e r
  end
with p_calls (fuel : nat) (f0 : expr) (toks : list token)
  : option (expr * list token) :=
  match fuel with
  | O => None
  | S f =>
      match toks with
      | TLParen :: r =>
          '(a, r') ← p_sum f r;
          match r' with
          | TRParen :: r'' => p_calls f (ECall f0 a) r''
          | _ => None
          end
      | _ => Some (f0, toks)
      end
  end
with p_prim (fuel : nat) (toks : list token) : option (expr * list token) :=
  match fuel with
  | O => None
  | S f =>
      match toks with
      | TNone :: r => Some (ENone, r)
      | TNum n :: r => Some (ENum n, r)
      | TStr s :: r => Some (EStr s, r)
      | TName x :: r => Some (EName x, r)
      | TLParen :: r =>
          '(e, r') ← p_sum f r;
          match r' with
          | TRParen :: r'' => Some (e, r'')
          | _ => None
          end
      | _ => None
      end
  end.

(** A whole expression out of all the tokens. *)
Definition parse_tokens (toks : list token) : option expr :=
  '(e, r) ← p_sum (5 * length toks + 10) toks;
  match r with [] => Some e | _ => None end.

Definition parse_expr (s : string) : option expr :=
  toks ← tokens s; parse_tokens toks.

Definition parse_stmt (line : string) : option stmt :=
  toks ← tokens line;
  match toks with
  | TName x :: TAssign :: r => SAssign x <$> parse_tokens r
  | TName x :: TPlusAssign :: r => SAugAdd x <$> parse_tokens r
  | _ => SExpr <$> parse_tokens toks
  end.

Definition syntax_error (cls : string) (bases : list string)
    (what file : string) (line : nat) : Exn :=
  std_exn cls bases
    (what +:+ " (" +:+ file +:+ ", line " +:+ str_int (Z.of_nat line) +:+ ")").

Fixpoint parse_lines (file : string) (n : nat) (lines : list string)
  : Outcome (list stmt) :=
  match lines with
  | [] => Returned []
  | line :: rest =>
      if isempty (strip line) then parse_lines file (S n) rest
      else match line with
           | String c _ =>
               if isblank c
               then Raised (syntax_error "IndentationError" ["SyntaxError"]
                              "unexpected indent" file n)
               else match parse_stmt line with
                    | None => Raised (syntax_error "SyntaxError" []
                                        "invalid syntax" file n)
                    | Some st =>
                        match parse_lines file (S n) rest with
                        | Returned sts => Returned (st :: sts)
                        | Raised e => Raised e
                        | Unmodelled => Unmodelled
                        end
                    end
           | EmptyString => parse_lines file (S n) rest
           end
  end.

Definition parse_program (file source : string) : Outcome (list stmt) :=
  parse_lines file 1 (split LF source).

(** *** Canonical source text *)

Fixpoint unparse_expr (e : expr) : string :=
  let atom (e' : expr) :=
    match e' with
    | EAdd _ _ => "(" +:+ unparse_expr e' +:+ ")"
    | _ => unparse_expr e'
    end in
  match e with
  | ENone => "None"
  | ENum n => str_int n
  | EStr s => repr_str s
  | EName x => x
  | EAdd l r => unparse_expr l +:+ " + " +:+ atom r
  | ECall f a => atom f +:+ "(" +:+ unparse_expr a +:+ ")"
  end.

Definition unparse (st : stmt) : string :=
  match st with
  | SExpr e => unparse_expr e
  | SAssign x e => x +:+ " = " +:+ unparse_expr e
  | SAugAdd x e => x +:+ " += " +:+ unparse_expr e
  end.

Definition class_of (st : stmt) : StmtClass :=
  match st with
  | SExpr _ => Expr
  | SAssign _ _ => Assign
  | SAugAdd _ _ => AugAssign
  end.

(** *** Values *)

Definition type_name (v : value) : string :=
  match v with
  | VNone => "NoneType"
  | VInt _ => "int"
  | VStr _ => "str"
  | VBuiltin _ => "builtin_function_or_method"
  end.

(** [str(v)] *)
Definition str (v : value) : string :=
  match v with
  | VNone => "None"
  | VInt n => str_int n
  | VStr s => s
  | VBuiltin name => "<built-in function " +:+ name +:+ ">"
  end.


(** [bool(v)] *)
Definition truthy (v : value) : bool :=
  match v with
  | VNone => false
  | VInt n => negb (n =? 0)%Z
  | VStr s => negb (isempty s)
  | VBuiltin _ => true
  end.

Definition TypeError (text : string) : Exn := std_exn "TypeError" [] text.

Definition NameError (x : string) : Exn :=
  std_exn "NameError" [] ("name '" +:+ x +:+ "' is not defined").

(** [a + b] *)
Definition add (a b : value) : Outcome value :=
  match a, b with
  | VInt m, VInt n => Returned (VInt (m + n))
  | VStr s, VStr t => Returned (VStr (s +:+ t))
  | VStr _, _ =>
      Raised (TypeError ("can only concatenate str (not "
                         +:+ String dquote (type_name b)
                         +:+ String dquote ") to str"))
  | _, _ =>
      Raised (TypeError ("unsupported operand type(s) for +: '"
                         +:+ type_name a +:+ "' and '" +:+ type_name b +:+ "'"))
  end.

(** *** Evaluation; the state of the interpreter is the environment *)

Abbreviation Env := (gmap string value).
Local Open Scope gen_scope.

Definition lift {A} (o : Outcome A) : Gen Env A :=
  fun w => {| yielded := []; after := w; outcome := o |}.

Definition builtins (x : string) : option value :=
  if String.eqb x "print" then Some (VBuiltin "print") else None.

Definition load (x : string) : Gen Env value :=
  w <- get_world ;;
  match py w !! x with
  | Some v => ret v
  | None => match builtins x with
            | Some v => ret v
            | None => raise (NameError x)
            end
  end.

Definition store (x : string) (v : value) : Gen Env unit :=
  modify (fun w => {| stdin := stdin w; console := console w;
                      redirect := redirect w; files := files w;
                      py := <[x := v]> (py w) |}).

Definition call (f arg : value) : Gen Env value :=
  match f with
  | VBuiltin "print" =>
      modify (write_stdout Printed (str arg +:+ nl)) ;; ret VNone
  | _ => raise (TypeError ("'" +:+ type_name f +:+ "' object is not callable"))
  end.

Fixpoint eval_expr (e : expr) : Gen Env value :=
  match e with
  | ENone => ret VNone
  | ENum n => ret (VInt n)
  | EStr s => ret (VStr s)
  | EName x => load x
  | EAdd l r => a <- eval_expr l ;; b <- eval_expr r ;; lift (add a b)
  | ECall f arg => fv <- eval_expr f ;; av <- eval_expr arg ;; call fv av
  end.

Definition exec_stmt (st : stmt) : Gen Env unit :=
  match st with
  | SExpr e => eval_expr e ;; ret tt
  | SAssign x e => v <- eval_expr e ;; store x v
  | SAugAdd x e =>
      a <- load x ;; b <- eval_expr e ;; v <- lift (add a b) ;; store x v
  end.

Fixpoint exec_stmts (sts : list stmt) : Gen Env unit :=
  match sts with
  | [] => ret tt
  | st :: rest => exec_stmt st ;; exec_stmts rest
  end.

Definition exec (source : string) (w : World Env) : World Env * Outcome unit :=
  match parse_program "<string>" source with
  | Returned sts => let r := exec_stmts sts w in (after r, outcome r)
  | Raised e => (w, Raised e)
  | Unmodelled => (w, Unmodelled)
  end.

Definition eval (source : string) (w : World Env) : World Env * Outcome value :=
  match parse_expr source with
  | Some e => let r := eval_expr e w in (after r, outcome r)
  | None => (w, Raised (syntax_error "SyntaxError" [] "invalid syntax" "<string>" 1))
  end.

(** *** The names of the executor and the files

    The environment is the namespace of the module: an assignment to one
    of the [executor_names] puts it there. The files are those of one
    directory without subdirectories. *)

Definition bound_names (env : Env) : list (option value) :=
  (fun x => env !! x) <$> executor_names.

Definition is_a_directory (filename : string) : Exn :=
  std_exn "IsADirectoryError" ["OSError"]
    ("[Errno 21] Is a directory: " +:+ repr_str filename).

Definition cannot_open (filename : string) (_ : gmap string string)
  : option Exn :=
  if isempty filename then Some (no_such_file filename)
  else if contains_char (ascii_of_N 0) filename
  then Some (std_exn "ValueError" [] "embedded null byte")
  else if String.eqb filename "." || String.eqb filename ".."
  then Some (is_a_directory filename)
  else if contains_char "/" filename then Some (no_such_file filename)
  else None.

(** *** A stand-in for the shell: it knows [echo], [true] and [false] *)

Definition sh (cmd : string) : CompletedProcess :=
  if startswith cmd "echo "
  then {| stdout := slice_from 5 cmd +:+ nl; stderr := EmptyString; returncode := 0 |}
  else if String.eqb cmd "true"
  then {| stdout := EmptyString; stderr := EmptyString; returncode := 0 |}
  else if String.eqb cmd "false"
  then {| stdout := EmptyString; stderr := EmptyString; returncode := 1 |}
  else {| stdout := EmptyString;
          stderr := "/bin/sh: 1: " +:+ cmd +:+ ": not found" +:+ nl;
          returncode := 127 |}.

Definition host : Host :=
  {| PyState := Env;
     Value := value;
     Stmt := stmt;
     ast_parse := parse_program "<unknown>";
     ast_unparse := unparse;
     stmt_class := class_of;
     py_exec := exec;
     py_eval := eval;
     truth := truthy;
     str_value := str;
     subprocess_run := fun cmd w => (w, Returned (sh cmd));
     colored := fun text _ _ _ => text;
     Names := list (option value);
     Names_dec := fun a b => decide (a = b);
     names := bound_names;
     open_error := cannot_open |}.

(** A session that has just started, with the given lines to read. *)
Definition fresh (answers : list string) : World Env :=
  {| stdin := answers; console := []; redirect := [];
     files := ∅; py := ∅ |}.

End MiniPy.

(** ** The replies the claims speak of *)

Definition system (text : string) : Message := Build_Message "system" text.

Definition aborted : Message :=
  system "Aborted, user chose not to run command.".

Definition saved_to (filename : string) : Message :=
  system ("Saved to " +:+ filename).

Definition does_not_exist (filename : string) : Message :=
  system ("Tried to load file '" +:+ filename +:+ "', but it does not exist.").

(** The file name a line asks to save to, when it is a save directive. *)
Definition save_target (line : string) : option string :=
  if startswith (strip line) "// save:"
  then strip <$> split ":" line !! 1%nat
  else None.

(** The answers that let a save, a load or a shell command go ahead. *)
Definition agrees (answer : string) : bool :=
  str_in (lower answer) ["y"; "Y"; ""; "yes"].


Definition fenced_section (title text : string) : string :=
  title +:+ nl +:+ nl +:+ fence +:+ "bash" +:+ nl +:+ text +:+ nl
  +:+ fence +:+ nl +:+ nl.

Definition status_line (code : Z) : string :=
  if (code =? 0)%Z then "Ran successfully"
  else "Return code: " +:+ str_int code.

(** A section of the report that is there only for a text that is not empty. *)
Definition optional_section (title text : string) : string :=
  if isempty text then EmptyString else fenced_section title text.

(** The command the shell executor runs for the text it is given. *)
Definition shell_command (cmd : string) : string :=
  let cmd := strip cmd in
  if startswith cmd "$ " then slice_from 2 cmd else cmd.

(** The line that shows a statement in the transcript. *)
Definition shown (stmt_str : string) : string := ">>> " +:+ stmt_str +:+ nl.

(** The line for an exception in the transcript. *)
Definition error_line (e : Exn) : string :=
  exn_class e +:+ ": " +:+ exn_text e +:+ nl.

Definition aborting : string := "Error during execution, aborting.".


(** A generator that yields one reply and returns. *)
Definition one_reply {Py} (m : Message) (w : World Py) : Run Py unit :=
  {| yielded := [m]; after := w; outcome := Returned tt |}.

(** ** The rest of the module: fenced blocks and the summarizer *)

Section Codeblocks.
Context {H : Host}.
Local Open Scope gen_scope.

(** [_execute_codeblock]. The generator returns the record it hands to
    [logger.warning], if it hands one. *)
Definition _execute_codeblock (codeblock : string)
  : Gen (PyState H) (option string) :=
  codeblock_lang <- match splitlines codeblock !! 0%nat with
                    | Some first => ret (strip first)
                    | None => raise (std_exn "IndexError" ["LookupError"]
                                       "list index out of range")
                    end ;;
  let codeblock := slice_from (String.length codeblock_lang) codeblock in
  if str_in codeblock_lang ["python"] then
    _execute_python codeblock true ;; ret None
  else if str_in codeblock_lang ["terminal"; "bash"; "sh"] then
    _execute_shell codeblock true ;; ret None
  else ret (Some ("Unknown codeblock type " +:+ codeblock_lang)).

End Codeblocks.

(** [s.split()]: the words of [s], the runs of characters that are not
    white space. *)
Fixpoint words (s : string) : list string :=
  match s with
  | EmptyString => []
  | String c r =>
      if isspace c then words r
      else match r with
           | String d _ =>
               if isspace d then String c EmptyString :: words r
               else match words r with
                    | w :: ws => String c w :: ws
                    | [] => [String c EmptyString]
                    end
           | EmptyString => [String c EmptyString]
           end
  end.

Section Summarizer.
Context {H : Host}.
(** [gptme.util.len_tokens] *)
Variable len_tokens : string -> nat.
(** [_llm_summarize], as [memory.cache] wraps it: the call of the model,
    or the summary kept from an earlier call. *)
Variable _llm_summarize : string -> Gen (PyState H) string.
Local Open Scope gen_scope.

(** The text [summarize] has summarized. *)
Definition summarized_text (text : string) : string :=
  if (200 <? len_tokens text)%nat then
    let beginning := join " " (take 150 (words text)) in
    let end_ := join " " (drop (length (words text) - 100) (words text)) in
    beginning +:+ nl +:+ "..." +:+ nl +:+ end_
  else text.

Definition summarize (msg : Message) : Gen (PyState H) Message :=
  summary <- _llm_summarize (summarized_text (content msg)) ;;
  ret (Build_Message "system"
         ("Here is a summary of the response:" +:+ nl +:+ summary)).

End Summarizer.

(** ** More vocabulary *)

(** The reply of the load handler for a file it has read. *)
Definition loaded (filename data : string) : Message :=
  system ("# filename: " +:+ filename +:+ nl +:+ nl +:+ data).

(** What a save directive writes for the block scanned before it. *)
Definition block_content (prev_codeblock : string) : string :=
  join nl (slice_1_m2 (split LF prev_codeblock)).

(** The two variables of the loop of [_execute_save] after a line. *)
Definition scan_line (line : string) (blocks : string * string)
  : string * string :=
  let '(prev_codeblock, codeblock) := blocks in
  if startswith line fence || negb (isempty codeblock) then
    let codeblock := codeblock +:+ line +:+ nl in
    if startswith codeblock fence && endswith (strip codeblock) fence
    then (codeblock, EmptyString)
    else (prev_codeblock, codeblock)
  else (prev_codeblock, codeblock).

Definition scan_lines (lines : list string) (blocks : string * string)
  : string * string :=
  fold_left (fun blocks line => scan_line line blocks) lines blocks.

(** A line that is not a save directive. *)
Definition plain_line (line : string) : bool :=
  negb (startswith (strip line) "// save:").

(** A word: not empty, and without white space. *)
Fixpoint no_space (s : string) : bool :=
  match s with
  | EmptyString => true
  | String c r => negb (isspace c) && no_space r
  end.

Definition is_word (w : string) : bool := negb (isempty w) && no_space w.

(** The buffer of the loop while a block is open: it begins with a fence,
    is made of whole lines and, stripped, does not end in a fence. *)
Definition gathering (acc : string) : Prop :=
  startswith acc fence = true
  /\ (exists a, acc = a +:+ nl)
  /\ endswith (rstrip acc) fence = false.

(** The text of a block as the loop gathers it: every line with its end. *)
Fixpoint with_line_ends (lines : list string) : string :=
  match lines with
  | [] => EmptyString
  | line :: rest => line +:+ nl +:+ with_line_ends rest
  end.

(** A line that cannot close a block: stripped, it does not end in a fence. *)
Definition open_line (line : string) : bool :=
  negb (endswith (rstrip line) fence).

(** [KeyboardInterrupt]: not an [Exception]. *)
Definition interrupted : Exn :=
  {| exn_class := "KeyboardInterrupt";
     exn_bases := ["BaseException"; "object"];
     exn_text := EmptyString |}.

Definition NUL : ascii := ascii_of_N 0.

(** A host for the failures that are not caught: its parser refuses a
    source with a null byte with a [ValueError], as Python did before 3.12,
    and every evaluation is interrupted from the keyboard. The rest is the
    fragment of Python. *)
Definition interrupting_host : Host :=
  {| PyState := MiniPy.Env;
     Value := MiniPy.value;
     Stmt := MiniPy.stmt;
     ast_parse := fun code =>
       if contains_char NUL code
       then Raised (std_exn "ValueError" []
                      "source code string cannot contain null bytes")
       else MiniPy.parse_program "<unknown>" code;
     ast_unparse := MiniPy.unparse;
     stmt_class := MiniPy.class_of;
     py_exec := MiniPy.exec;
     py_eval := fun _ w => (w, Raised interrupted);
     truth := MiniPy.truthy;
     str_value := MiniPy.str;
     subprocess_run := fun cmd w => (w, Returned (MiniPy.sh cmd));
     colored := fun text _ _ _ => text;
     Names := list (option MiniPy.value);
     Names_dec := fun a b => decide (a = b);
     names := MiniPy.bound_names;
     open_error := MiniPy.cannot_open |}.

(** A run after which the replies [ys] were already yielded. *)
Definition after_yields {Py A} (ys : list Message) (r : Run Py A) : Run Py A :=
  {| yielded := ys ++ yielded r; after := after r; outcome := outcome r |}.

(** ** Running generators *)

Section GeneratorFacts.
Context {Py : Type}.

Lemma run_eta {A} (r : Run Py A) :
  {| yielded := yielded r; after := after r; outcome := outcome r |} = r.
Proof. destruct r; reflexivity. Qed.

Lemma bind_returned {A B} (m : Gen Py A) (k : A -> Gen Py B) w ys w' a r :
  m w = {| yielded := ys; after := w'; outcome := Returned a |} ->
  k a w' = r ->
  bind m k w = after_yields ys r.
Proof. intros Hm <-. unfold bind. rewrite Hm. reflexivity. Qed.

Lemma bind_both_returned {A B} (m : Gen Py A) (k : A -> Gen Py B)
    w ys w' a ys' w'' b :
  m w = {| yielded := ys; after := w'; outcome := Returned a |} ->
  k a w' = {| yielded := ys'; after := w''; outcome := Returned b |} ->
  bind m k w = {| yielded := ys ++ ys'; after := w''; outcome := Returned b |}.
Proof. intros Hm Hk. unfold bind. rewrite Hm. cbn. rewrite Hk. reflexivity. Qed.

Lemma bind_raised {A B} (m : Gen Py A) (k : A -> Gen Py B) w ys w' e :
  m w = {| yielded := ys; after := w'; outcome := Raised e |} ->
  bind m k w = {| yielded := ys; after := w'; outcome := Raised e |}.
Proof. intros Hm. unfold bind. rewrite Hm. reflexivity. Qed.

Lemma stdin_write_stdout ev text (w : World Py) :
  stdin (write_stdout ev text w) = stdin w.
Proof. unfold write_stdout. destruct (redirect w); reflexivity. Qed.

Lemma files_write_stdout ev text (w : World Py) :
  files (write_stdout ev text w) = files w.
Proof. unfold write_stdout. destruct (redirect w); reflexivity. Qed.

Lemma py_write_stdout ev text (w : World Py) :
  py (write_stdout ev text w) = py w.
Proof. unfold write_stdout. destruct (redirect w); reflexivity. Qed.

Lemma console_write_stdout ev text (w : World Py) :
  redirect w = [] ->
  console (write_stdout ev text w) = console w ++ [ev text]
  /\ redirect (write_stdout ev text w) = [].
Proof. unfold write_stdout. intros ->. split; reflexivity. Qed.

Lemma input_line prompt (w : World Py) line rest :
  stdin w = line :: rest ->
  input prompt w
  = {| yielded := []; after := set_stdin rest (write_stdout Prompted prompt w);
       outcome := Returned line |}.
Proof.
  intros Hin. unfold input. rewrite stdin_write_stdout, Hin. reflexivity.
Qed.

Lemma input_eof prompt (w : World Py) :
  stdin w = [] ->
  input prompt w
  = {| yielded := []; after := write_stdout Prompted prompt w;
       outcome := Raised (std_exn "EOFError" [] "EOF when reading a line") |}.
Proof.
  intros Hin. unfold input. rewrite stdin_write_stdout, Hin. reflexivity.
Qed.

End GeneratorFacts.

(** Runs a generator made of [bind], [print], [input], [yield] and [ret],
    for as long as each step returns; a condition is decided by a
    hypothesis. [run_returned] is for a goal whose right side is a run that
    returns, [run_gen] for one whose right side is still to be found. *)
Ltac run_input :=
  first [ eapply input_line; rewrite ?stdin_write_stdout; eassumption
        | eapply input_eof; rewrite ?stdin_write_stdout; eassumption ].

Ltac run_condition :=
  lazymatch goal with
  | |- (if ?c then _ else _) _ = _ =>
      lazymatch goal with Hc : c = _ |- _ => rewrite Hc end
  end.

Ltac run_returned :=
  cbv beta iota;
  lazymatch goal with
  | |- bind _ _ _ = _ => eapply bind_both_returned; [run_returned | run_returned]
  | |- input _ _ = _ => run_input
  | |- (if _ then _ else _) _ = _ => run_condition; run_returned
  | |- _ => reflexivity
  end.


(** ** Facts about the string methods *)

Section StringFacts.

Lemma rstrip_app_nonblank (s p : string) :
  isempty (rstrip p) = false -> rstrip (s +:+ p) = s +:+ rstrip p.
Proof.
  intros Hp. induction s as [|c s IH]; [reflexivity|].
  change (String c s +:+ p) with (String c (s +:+ p)).
  cbn [rstrip]. rewrite IH.
  assert (Hne : isempty (s +:+ rstrip p) = false).
  { destruct s; [exact Hp | reflexivity]. }
  rewrite Hne, andb_false_r. reflexivity.
Qed.

Lemma isempty_rstrip_lstrip (p : string) :
  isempty (strip p) = false -> isempty (rstrip p) = false.
Proof.
  unfold strip. induction p as [|c p IH]; [discriminate|].
  cbn [lstrip rstrip]. destruct (isspace c) eqn:Hc; cbn [andb].
  - intros Hs. rewrite (IH Hs). reflexivity.
  - intros _. reflexivity.
Qed.

Lemma startswith_app (p s : string) : startswith (p +:+ s) p = true.
Proof.
  induction p as [|c p IH]; [reflexivity|].
  change (String c p +:+ s) with (String c (p +:+ s)).
  cbn [startswith]. rewrite IH, Ascii.eqb_refl. reflexivity.
Qed.

Lemma append_assoc (a b c : string) : (a +:+ b) +:+ c = a +:+ (b +:+ c).
Proof.
  induction a as [|x a IH]; [reflexivity|].
  change ((String x a +:+ b) +:+ c) with (String x ((a +:+ b) +:+ c)).
  rewrite IH. reflexivity.
Qed.

Lemma append_empty_r (a : string) : a +:+ EmptyString = a.
Proof.
  induction a as [|x a IH]; [reflexivity|].
  change (String x a +:+ EmptyString) with (String x (a +:+ EmptyString)).
  rewrite IH. reflexivity.
Qed.


Lemma length_append (a b : string) :
  String.length (a +:+ b) = String.length a + String.length b.
Proof.
  induction a as [|x a IH]; [reflexivity|].
  change (String x a +:+ b) with (String x (a +:+ b)).
  cbn [String.length]. rewrite IH. reflexivity.
Qed.

Lemma slice_from_append (a b : string) :
  slice_from (String.length a) (a +:+ b) = b.
Proof.
  induction a as [|x a IH]; [reflexivity|].
  change (String x a +:+ b) with (String x (a +:+ b)).
  cbn [String.length slice_from]. exact IH.
Qed.

Lemma endswith_app (a b : string) : endswith (a +:+ b) b = true.
Proof.
  unfold endswith. rewrite length_append.
  replace (String.length a + String.length b - String.length b)
    with (String.length a) by lia.
  rewrite slice_from_append, String.eqb_refl, andb_true_r.
  apply Nat.leb_le. lia.
Qed.

End StringFacts.

(** ** The confirmation gates and the dispatcher *)

Section GateFacts.
Context {H : Host}.

(** Any answer other than [y] or [yes], in any case, declines. *)
Lemma python_declined (code c : string) (rest : list string) (w : World (PyState H)) :
  stdin w = c :: rest ->
  str_in (lower c) ["y"; "yes"] = false ->
  exists w', _execute_python code true w = one_reply aborted w'
             /\ py w' = py w /\ files w' = files w /\ stdin w' = rest.
Proof.
  intros Hin Hc. eexists. split.
  - unfold _execute_python, _print_preview.
    etransitivity.
    { eapply bind_returned; [run_returned|].
      cbv beta. unfold answered. rewrite Hc. reflexivity. }
    cbn [after_yields yielded after outcome app yield]. reflexivity.
  - unfold set_stdin. cbn [py files stdin].
    rewrite !py_write_stdout, !files_write_stdout. repeat split; reflexivity.
Qed.

(** C1, as the code has it: with confirmation required, an empty answer
    declines. For every source text the only reply is the one that says
    the command was aborted, and neither the environment nor the files
    change: the code is not run. *)
Theorem python_empty_answer_aborts
    (code : string) (rest : list string) (w : World (PyState H)) :
  stdin w = EmptyString :: rest ->
  let r := _execute_python code true w in
  yielded r = [aborted] /\ outcome r = Returned tt
  /\ py (after r) = py w /\ files (after r) = files w.
Proof.
  intros Hin r.
  destruct (python_declined code EmptyString rest w Hin eq_refl)
    as (w' & Hrun & Hp & Hf & _).
  subst r. rewrite Hrun. repeat split; assumption.
Qed.

End GateFacts.

Lemma python_empty_answer_aborts_witness :
  let w := MiniPy.fresh [EmptyString] in
  let r := _execute_python (H := MiniPy.host) "1 + 1" true w in
  yielded r = [aborted] /\ outcome r = Returned tt
  /\ py (after r) = py w /\ files (after r) = files w.
Proof.
  apply (python_empty_answer_aborts (H := MiniPy.host) "1 + 1" []
           (MiniPy.fresh [EmptyString])).
  reflexivity.
Defined.

(** C1 as the spec states it fails: after an empty answer the source
    [1 + 1] is not run; the reply is not the transcript that the same
    source gives when no confirmation is asked. *)
Lemma python_empty_answer_counterexample :
  yielded (_execute_python (H := MiniPy.host) "1 + 1" true (MiniPy.fresh [EmptyString]))
  = [aborted]
  /\ yielded (_execute_python (H := MiniPy.host) "1 + 1" false (MiniPy.fresh []))
     = [system (">>> 1 + 1" +:+ nl +:+ "2" +:+ nl)]
  /\ yielded (_execute_python (H := MiniPy.host) "1 + 1" true (MiniPy.fresh [EmptyString]))
     <> yielded (_execute_python (H := MiniPy.host) "1 + 1" false (MiniPy.fresh [])).
Proof.
  repeat split; try (vm_compute; reflexivity).
  vm_compute. intros Heq. discriminate Heq.
Qed.

Section DispatchFacts.
Context {H : Host}.

(** C3, as the code has it: on the line [// load: <path>] the dispatcher
    cuts six characters, the length of [load: ], off the front of the
    whole line, so the load handler is given [d: <path>]. *)
Theorem linecmd_load_filename (path : string) :
  isempty (strip path) = false ->
  _execute_linecmd (H := H) ("// load: " +:+ path)
  = _execute_load (H := H) ("d: " +:+ path).
Proof.
  intros Hpath. unfold _execute_linecmd.
  change ("// load: " +:+ path) with
    (String "/" (String "/" (String " " (String "l" (String "o" (String "a"
       ("d: " +:+ path))))))).
  change (startswith (String "/" ?s) "terminal: ") with false.
  change (startswith (String "/" ?s) "python: ") with false.
  cbv iota.
  unfold strip. cbn [lstrip].
  change (isspace "/") with false. cbv iota.
  change (String "/" (String "/" (String " " (String "l" (String "o" (String "a"
       ("d: " +:+ path))))))) with ("// load: " +:+ path) at 1.
  rewrite rstrip_app_nonblank by (apply isempty_rstrip_lstrip; exact Hpath).
  rewrite startswith_app. reflexivity.
Qed.

(** C4, as the code has it: for a file that does not exist the load
    handler yields the reply that says so and then goes on to the
    confirmation prompt, which it writes to the terminal and for which it
    reads a line; it yields nothing else. *)
Theorem load_missing_file_still_prompts
    (filename : string) (w : World (PyState H)) :
  files w !! filename = None ->
  redirect w = [] ->
  let r := _execute_load filename w in
  yielded r = [does_not_exist filename]
  /\ console (after r)
     = console w ++ [Prompted ("Load from " +:+ filename +:+ "? (Y/n) ")]
  /\ stdin (after r) = tail (stdin w).
Proof.
  intros Hf Hr r.
  assert (Hex : path_exists filename w
                = {| yielded := []; after := w; outcome := Returned false |}).
  { unfold path_exists. rewrite Hf. reflexivity. }
  destruct (console_write_stdout Prompted
              ("Load from " +:+ filename +:+ "? (Y/n) ") w Hr) as [Hco _].
  destruct (stdin w) as [|c rest] eqn:Hin.
  - assert (Hrun : r = _execute_load filename w) by reflexivity.
    unfold _execute_load in Hrun.
    erewrite bind_returned in Hrun; [|exact Hex|].
    2:{ cbv beta iota. cbn [negb]. eapply bind_returned; [reflexivity|].
        cbv beta. eapply bind_raised. apply input_eof. exact Hin. }
    rewrite Hrun. cbn [after_yields yielded after outcome app yield].
    rewrite stdin_write_stdout, Hin. repeat split; first [reflexivity | exact Hco].
  - assert (Hrun : r = _execute_load filename w) by reflexivity.
    unfold _execute_load in Hrun.
    erewrite bind_returned in Hrun; [|exact Hex|].
    2:{ cbv beta iota. cbn [negb]. eapply bind_returned; [reflexivity|].
        cbv beta. eapply bind_returned; [apply input_line; exact Hin|].
        cbv beta. reflexivity. }
    rewrite Hrun. cbn [after_yields yielded after outcome app yield].
    destruct (str_in (lower c) ["y"; "Y"; ""; "yes"]).
    + unfold bind, read_file. cbn [set_stdin files outcome yielded after].
      rewrite files_write_stdout, Hf. cbn [yielded after outcome app console stdin].
      repeat split; first [reflexivity | exact Hco].
    + cbn [ret yielded after outcome app set_stdin console stdin].
      repeat split; first [reflexivity | exact Hco].
Qed.

(** The classes the executor names are sent to [exec]. *)
Lemma uses_exec_listed (stmt : Stmt H) :
  In (stmt_class H stmt)
     [Assign; AnnAssign; Assert; ClassDef; FunctionDef; Import; ImportFrom;
      If; For; While; With; Try; AsyncFor; AsyncFunctionDef; AsyncWith] ->
  uses_exec stmt = true.
Proof.
  unfold uses_exec, isinstance. intros Hin. cbn in Hin.
  repeat (destruct Hin as [<- | Hin]; [reflexivity|]). contradiction.
Qed.

(** All the other classes are sent to [eval]. *)
Lemma uses_exec_other (stmt : Stmt H) :
  In (stmt_class H stmt)
     [AugAssign; Return; Delete; TypeAlias; Match; Raise; TryStar; Global;
      Nonlocal; Expr; Pass; Break; Continue] ->
  uses_exec stmt = false.
Proof.
  unfold uses_exec, isinstance. intros Hin. cbn in Hin.
  repeat (destruct Hin as [<- | Hin]; [reflexivity|]). contradiction.
Qed.

(** C5, as the code has it: an augmented assignment is not among the
    classes sent to [exec]; the executor evaluates it with [eval], outside
    any capture of the output, like an expression. *)
Theorem augmented_assignment_is_evaluated
    (stmt : Stmt H) (stmt_str output : string) (w : World (PyState H)) :
  stmt_class H stmt = AugAssign ->
  uses_exec stmt = false
  /\ run_statement stmt stmt_str output w
     = bind (keeping_names (effect (py_eval H stmt_str)))
         (fun v => ret (if truth H v
                        then output +:+ str_value H v +:+ nl
                        else output)) w.
Proof.
  intros Hc.
  assert (Hu : uses_exec stmt = false).
  { apply uses_exec_other. rewrite Hc. left. reflexivity. }
  split; [exact Hu|].
  unfold run_statement. rewrite Hu. unfold bind, keeping_names, effect, ret.
  destruct (py_eval H stmt_str w) as [w' [v|e|]]; cbn [yielded after outcome];
    destruct (Names_dec H (names H (py w')) (names H (py w)));
    cbn [yielded after outcome]; rewrite ?app_nil_r; reflexivity.
Qed.

End DispatchFacts.

Lemma linecmd_load_filename_witness :
  _execute_linecmd (H := MiniPy.host) "// load: notes.txt"
  = _execute_load (H := MiniPy.host) "d: notes.txt".
Proof.
  exact (linecmd_load_filename (H := MiniPy.host) "notes.txt" eq_refl).
Defined.

(** With [notes.txt] on disk and the answer [y], the line
    [// load: notes.txt] does not load it: the handler looks for
    [d: notes.txt], reports it missing and fails to open it. *)
Example linecmd_load_notes :
  let w := {| stdin := ["y"]; console := []; redirect := [];
              files := {["notes.txt" := "remember"]}; py := ∅ |} in
  let r := _execute_linecmd (H := MiniPy.host) "// load: notes.txt" w in
  yielded r = [does_not_exist "d: notes.txt"]
  /\ outcome r = Raised (no_such_file "d: notes.txt")
  /\ yielded (_execute_load (H := MiniPy.host) "notes.txt" w)
     = [system ("# filename: notes.txt" +:+ nl +:+ nl +:+ "remember")].
Proof. repeat split; vm_compute; reflexivity. Qed.

Lemma load_missing_file_still_prompts_witness :
  let w := MiniPy.fresh ["n"] in
  let r := _execute_load (H := MiniPy.host) "missing.txt" w in
  yielded r = [does_not_exist "missing.txt"]
  /\ console (after r)
     = console w ++ [Prompted ("Load from " +:+ "missing.txt" +:+ "? (Y/n) ")]
  /\ stdin (after r) = tail (stdin w).
Proof.
  exact (load_missing_file_still_prompts (H := MiniPy.host) "missing.txt"
           (MiniPy.fresh ["n"]) eq_refl eq_refl).
Defined.

Lemma augmented_assignment_is_evaluated_witness :
  let stmt := MiniPy.SAugAdd "a" (MiniPy.ENum 1) in
  uses_exec (H := MiniPy.host) stmt = false
  /\ run_statement (H := MiniPy.host) stmt "a += 1" EmptyString (MiniPy.fresh [])
     = bind (keeping_names (effect (py_eval MiniPy.host "a += 1")))
         (fun v => ret (if truth MiniPy.host v
                        then EmptyString +:+ str_value MiniPy.host v +:+ nl
                        else EmptyString)) (MiniPy.fresh []).
Proof.
  exact (augmented_assignment_is_evaluated (H := MiniPy.host)
           (MiniPy.SAugAdd "a" (MiniPy.ENum 1)) "a += 1" EmptyString
           (MiniPy.fresh []) eq_refl).
Defined.

(** After [a = 1], the statement [a += 1] is reported as a syntax error and
    leaves [a] as it was. *)
Example augmented_assignment_fails :
  let r := _execute_python (H := MiniPy.host)
             ("a = 1" +:+ nl +:+ "a += 1") false (MiniPy.fresh []) in
  yielded r
  = [system (">>> a = 1" +:+ nl +:+ ">>> a += 1" +:+ nl
             +:+ "SyntaxError: invalid syntax (<string>, line 1)" +:+ nl
             +:+ "Error during execution, aborting.")]
  /\ py (after r) !! "a" = Some (MiniPy.VInt 1).
Proof. split; vm_compute; reflexivity. Qed.

(** ** The statement interpreter *)

Section InterpreterFacts.
Context {H : Host}.

(** A step that leaves the names of the executor as they were. *)
Lemma keeping_names_kept {A} (m : Gen (PyState H) A) w :
  names H (py (after (m w))) = names H (py w) ->
  keeping_names m w = m w.
Proof.
  intros Hn. unfold keeping_names. cbv zeta.
  destruct (Names_dec H (names H (py (after (m w)))) (names H (py w)));
    [reflexivity|contradiction].
Qed.

(** A step that returns or raises has left them as they were. *)
Lemma keeping_names_known {A} (m : Gen (PyState H) A) w :
  outcome (keeping_names m w) <> Unmodelled ->
  names H (py (after (m w))) = names H (py w).
Proof.
  unfold keeping_names. cbv zeta.
  destruct (Names_dec H (names H (py (after (m w)))) (names H (py w)));
    [intros _; assumption|].
  cbn [outcome]. intros Hu. contradiction Hu. reflexivity.
Qed.

Lemma keeping_names_yields {A} (m : Gen (PyState H) A) w :
  yielded (keeping_names m w) = yielded (m w).
Proof.
  unfold keeping_names. cbv zeta.
  destruct (Names_dec H (names H (py (after (m w)))) (names H (py w)));
    reflexivity.
Qed.

Lemma run_statement_yields (stmt : Stmt H) (stmt_str output : string) w :
  yielded (run_statement stmt stmt_str output w) = [].
Proof.
  unfold run_statement. unfold bind at 1.
  set (m := if uses_exec stmt then _ else _).
  assert (Hm : yielded (m w) = []).
  { subst m. unfold with_redirect_stdout, bind, effect, getvalue, ret.
    destruct (uses_exec stmt).
    - destruct (py_exec H stmt_str (push_buffer w)) as [w' [[]|e|]]; reflexivity.
    - destruct (py_eval H stmt_str w) as [w' [v|e|]]; reflexivity. }
  pose proof (keeping_names_yields m w) as Hy. rewrite Hm in Hy.
  destruct (outcome (keeping_names m w)); cbn [yielded ret]; rewrite Hy;
    reflexivity.
Qed.

(** One turn of the loop when the statement ends well. *)
Lemma try_statement_returned (stmt : Stmt H) (stmt_str output out' : string) w :
  outcome (run_statement stmt stmt_str output w) = Returned out' ->
  try_statement stmt stmt_str output w
  = {| yielded := []; after := after (run_statement stmt stmt_str output w);
       outcome := Returned (inl out') |}.
Proof.
  intros Ho. unfold try_statement, try_except, bind, ret.
  rewrite Ho. cbn. rewrite run_statement_yields. reflexivity.
Qed.


Lemma for_statements_cons_returned
    (stmt : Stmt H) (rest : list (Stmt H)) (output out' : string) w :
  outcome (run_statement stmt (ast_unparse H stmt)
             (output +:+ shown (ast_unparse H stmt)) w) = Returned out' ->
  for_statements (stmt :: rest) output w
  = for_statements rest out'
      (after (run_statement stmt (ast_unparse H stmt)
                (output +:+ shown (ast_unparse H stmt)) w)).
Proof.
  intros Ho. cbn [for_statements]. unfold bind.
  fold (shown (ast_unparse H stmt)).
  rewrite (try_statement_returned _ _ _ _ _ Ho). cbn. apply run_eta.
Qed.


Lemma try_statement_yields (stmt : Stmt H) (stmt_str output : string) w :
  yielded (try_statement stmt stmt_str output w) = [].
Proof.
  unfold try_statement, try_except, bind, ret.
  pose proof (run_statement_yields stmt stmt_str output w) as Hy.
  destruct (outcome (run_statement stmt stmt_str output w)) as [o|e|] eqn:Ho;
    cbn [yielded after outcome].
  - rewrite Hy. reflexivity.
  - destruct (isinstance_exn e "Exception"); cbn [yielded after outcome];
      rewrite Hy; reflexivity.
  - exact Hy.
Qed.

(** The loop yields nothing: the reply is built after it. *)
Lemma for_statements_yields (statements : list (Stmt H)) (output : string) w :
  yielded (for_statements statements output w) = [].
Proof.
  revert output w. induction statements as [|stmt rest IH]; intros output w;
    [reflexivity|].
  cbn [for_statements]. unfold bind.
  pose proof (try_statement_yields stmt (ast_unparse H stmt)
                (output +:+ ">>> " +:+ ast_unparse H stmt +:+ nl) w) as Hy.
  destruct (outcome (try_statement stmt (ast_unparse H stmt)
                       (output +:+ ">>> " +:+ ast_unparse H stmt +:+ nl) w))
    as [[o|o]|e|]; cbn; rewrite Hy; cbn; [apply IH | reflexivity..].
Qed.

Lemma for_statements_cons_inl
    (stmt : Stmt H) (rest : list (Stmt H)) (output o : string) w :
  outcome (try_statement stmt (ast_unparse H stmt)
             (output +:+ ">>> " +:+ ast_unparse H stmt +:+ nl) w)
  = Returned (inl o) ->
  for_statements (stmt :: rest) output w
  = for_statements rest o
      (after (try_statement stmt (ast_unparse H stmt)
                (output +:+ ">>> " +:+ ast_unparse H stmt +:+ nl) w)).
Proof.
  intros Ht. cbn [for_statements]. unfold bind. rewrite Ht.
  rewrite try_statement_yields. cbn [app]. apply run_eta.
Qed.

(** Statements that all end well hand the transcript and the world on to
    the statements after them. *)
Lemma for_statements_app
    (pre rest : list (Stmt H)) (output out1 : string) w :
  outcome (for_statements pre output w) = Returned (out1, false) ->
  for_statements (pre ++ rest) output w
  = for_statements rest out1 (after (for_statements pre output w)).
Proof.
  revert output w. induction pre as [|stmt pre IH]; intros output w Ho.
  - cbn in Ho. injection Ho as ->. reflexivity.
  - destruct (outcome (try_statement stmt (ast_unparse H stmt)
                         (output +:+ ">>> " +:+ ast_unparse H stmt +:+ nl) w))
      as [[o|o]|e|] eqn:Ht.
    + rewrite (for_statements_cons_inl _ _ _ _ _ Ht) in Ho.
      change ((stmt :: pre) ++ rest) with (stmt :: (pre ++ rest)).
      rewrite !(for_statements_cons_inl _ _ _ _ _ Ht). apply IH. exact Ho.
    + cbn [for_statements] in Ho. unfold bind in Ho. rewrite Ht in Ho.
      cbn [outcome ret] in Ho. discriminate Ho.
    + cbn [for_statements] in Ho. unfold bind in Ho. rewrite Ht in Ho.
      cbn [outcome] in Ho. discriminate Ho.
    + cbn [for_statements] in Ho. unfold bind in Ho. rewrite Ht in Ho.
      cbn [outcome] in Ho. discriminate Ho.
Qed.

(** Without confirmation, once the source is parsed the reply is made of
    what the loop returns. *)
Lemma execute_python_parsed
    (code : string) (statements : list (Stmt H)) (out : string) (err : bool) w :
  ast_parse H (strip code) = Returned statements ->
  outcome (for_statements statements EmptyString w) = Returned (out, err) ->
  _execute_python code false w
  = one_reply (system (if err then out +:+ aborting else out))
      (after (for_statements statements EmptyString w)).
Proof.
  intros Hp Ho. unfold _execute_python, try_except, bind, ret, yield, one_reply.
  cbn. rewrite Hp. cbn. rewrite Ho. cbn.
  rewrite for_statements_yields. destruct err; reflexivity.
Qed.

(** A statement that is sent to [eval], gives a value and leaves the
    names of the executor as they were. *)
Lemma run_statement_evaluated
    (stmt : Stmt H) (stmt_str output : string) (v : Value H) w w' :
  uses_exec stmt = false ->
  py_eval H stmt_str w = (w', Returned v) ->
  names H (py w') = names H (py w) ->
  run_statement stmt stmt_str output w
  = {| yielded := []; after := w';
       outcome := Returned (if truth H v then output +:+ str_value H v +:+ nl
                            else output) |}.
Proof.
  intros Hu Hv Hn. unfold run_statement. rewrite Hu.
  assert (Hin : bind (effect (py_eval H stmt_str))
                  (fun v => ret (Evaluated v)) w
                = {| yielded := []; after := w';
                     outcome := Returned (Evaluated v) |}).
  { unfold bind, effect, ret. rewrite Hv. reflexivity. }
  unfold bind at 1.
  rewrite keeping_names_kept by (rewrite Hin; exact Hn).
  rewrite Hin. reflexivity.
Qed.

(** A source of one statement that is sent to [eval]. *)
Lemma execute_python_expression
    (code : string) (stmt : Stmt H) (v : Value H) w w' :
  ast_parse H (strip code) = Returned [stmt] ->
  uses_exec stmt = false ->
  py_eval H (ast_unparse H stmt) w = (w', Returned v) ->
  names H (py w') = names H (py w) ->
  _execute_python code false w
  = one_reply (system (shown (ast_unparse H stmt)
                       +:+ (if truth H v then str_value H v +:+ nl
                            else EmptyString))) w'.
Proof.
  intros Hp Hu Hv Hn.
  assert (Hr : run_statement stmt (ast_unparse H stmt)
                 (EmptyString +:+ shown (ast_unparse H stmt)) w
               = {| yielded := []; after := w';
                    outcome := Returned
                      (shown (ast_unparse H stmt)
                       +:+ (if truth H v then str_value H v +:+ nl
                            else EmptyString)) |}).
  { rewrite (run_statement_evaluated _ _ _ v w w' Hu Hv Hn).
    destruct (truth H v); [reflexivity|].
    rewrite append_empty_r. reflexivity. }
  assert (Hf : for_statements [stmt] EmptyString w
               = {| yielded := []; after := w';
                    outcome := Returned
                      (shown (ast_unparse H stmt)
                       +:+ (if truth H v then str_value H v +:+ nl
                            else EmptyString), false) |}).
  { rewrite (for_statements_cons_returned stmt [] EmptyString
               (shown (ast_unparse H stmt)
                +:+ (if truth H v then str_value H v +:+ nl else EmptyString)) w)
      by (rewrite Hr; reflexivity).
    rewrite Hr. reflexivity. }
  rewrite (execute_python_parsed code [stmt]
             (shown (ast_unparse H stmt)
              +:+ (if truth H v then str_value H v +:+ nl else EmptyString))
             false w Hp)
    by (rewrite Hf; reflexivity).
  rewrite Hf. reflexivity.
Qed.

End InterpreterFacts.

Section MiniPyFacts.
Import MiniPy.

Lemma eval_source (source : string) (e : expr) (w : World Env) :
  parse_expr source = Some e ->
  eval source w = (after (eval_expr e w), outcome (eval_expr e w)).
Proof. intros Hp. unfold eval. rewrite Hp. reflexivity. Qed.

Lemma exec_source (source : string) (sts : list stmt) (w : World Env) :
  parse_program "<string>" source = Returned sts ->
  exec source w = (after (exec_stmts sts w), outcome (exec_stmts sts w)).
Proof. intros Hp. unfold exec. rewrite Hp. reflexivity. Qed.

Lemma load_bound (x : string) (v : value) (w : World Env) :
  py w !! x = Some v ->
  load x w = {| yielded := []; after := w; outcome := Returned v |}.
Proof. intros Hx. unfold load, bind, get_world. cbn. rewrite Hx. reflexivity. Qed.

Lemma load_builtin (x : string) (v : value) (w : World Env) :
  py w !! x = None -> builtins x = Some v ->
  load x w = {| yielded := []; after := w; outcome := Returned v |}.
Proof.
  intros Hx Hb. unfold load, bind, get_world. cbn. rewrite Hx, Hb. reflexivity.
Qed.

(** Binding [a] rebinds no name of the executor. *)
Lemma bound_names_a (v : value) (env : Env) :
  bound_names (<["a" := v]> env) = bound_names env.
Proof.
  unfold bound_names, executor_names. cbn [fmap list_fmap].
  rewrite !lookup_insert_ne by discriminate. reflexivity.
Qed.


(** C9: the source [print(1)] is an expression statement, so it is
    evaluated with [eval], outside any capture: the text [1] goes to
    standard output, the value is [None], and the only reply is the line
    that shows the statement. [print] must still name the built-in. *)
Theorem python_print_adds_no_line (w : World Env) :
  py w !! "print" = None ->
  _execute_python (H := host) "print(1)" false w
  = one_reply (system (">>> print(1)" +:+ nl))
      (write_stdout Printed ("1" +:+ nl) w).
Proof.
  intros Hprint.
  rewrite (execute_python_expression (H := host) "print(1)"
             (SExpr (ECall (EName "print") (ENum 1))) VNone w
             (write_stdout Printed ("1" +:+ nl) w));
    [reflexivity | vm_compute; reflexivity | vm_compute; reflexivity |
    | rewrite py_write_stdout; reflexivity].
  change (ast_unparse host (SExpr (ECall (EName "print") (ENum 1))))
    with "print(1)".
  change (py_eval host) with eval.
  rewrite (eval_source "print(1)" (ECall (EName "print") (ENum 1)) w)
    by (vm_compute; reflexivity).
  assert (He : eval_expr (ECall (EName "print") (ENum 1)) w
               = {| yielded := []; after := write_stdout Printed ("1" +:+ nl) w;
                    outcome := Returned VNone |}).
  { cbn [eval_expr].
    rewrite (bind_returned _ _ w [] w (VBuiltin "print") _
               (load_builtin "print" _ w Hprint eq_refl) eq_refl).
    reflexivity. }
  rewrite He. reflexivity.
Qed.

(** C10: in [a = 2] followed by [a], the assignment is run with [exec] and
    prints nothing, and the expression [a] is then evaluated in the
    environment the assignment left: the one reply shows both statements
    and the value 2, and [a] stays bound to 2 after the call. *)
Theorem python_binding_persists (w : World Env) :
  let r := _execute_python (H := host) ("a = 2" +:+ nl +:+ "a") false w in
  yielded r = [system (">>> a = 2" +:+ nl +:+ ">>> a" +:+ nl +:+ "2" +:+ nl)]
  /\ outcome r = Returned tt
  /\ py (after r) = <["a" := VInt 2]> (py w).
Proof.
  set (w1 := {| stdin := stdin w; console := console w; redirect := redirect w;
                files := files w; py := <["a" := VInt 2]> (py w) |}).
  assert (H1 : run_statement (H := host) (SAssign "a" (ENum 2)) "a = 2"
                 (shown "a = 2") w
               = {| yielded := []; after := w1;
                    outcome := Returned (shown "a = 2") |}).
  { unfold run_statement.
    change (uses_exec (H := host) (SAssign "a" (ENum 2))) with true. cbv iota.
    assert (Hx : with_redirect_stdout
                   (bind (effect (py_exec host "a = 2"))
                      (fun _ => bind getvalue
                                  (fun buf => ret (Captured (H := host) (strip buf)))))
                   w
                 = {| yielded := []; after := w1;
                      outcome := Returned (Captured (H := host) EmptyString) |}).
    { unfold with_redirect_stdout, bind, effect, getvalue, ret.
      change (py_exec host) with exec.
      rewrite (exec_source "a = 2" [SAssign "a" (ENum 2)])
        by (vm_compute; reflexivity).
      destruct w; reflexivity. }
    unfold bind at 1.
    rewrite keeping_names_kept
      by (rewrite Hx; subst w1; cbn [after py]; apply bound_names_a).
    rewrite Hx. reflexivity. }
  assert (H2 : run_statement (H := host) (SExpr (EName "a")) "a"
                 (shown "a = 2" +:+ shown "a") w1
               = {| yielded := []; after := w1;
                    outcome := Returned (shown "a = 2" +:+ shown "a"
                                         +:+ "2" +:+ nl) |}).
  { assert (He : eval "a" w1 = (w1, Returned (VInt 2))).
    { rewrite (eval_source "a" (EName "a")) by (vm_compute; reflexivity).
      cbn [eval_expr].
      rewrite (load_bound "a" (VInt 2) w1) by apply lookup_insert_eq.
      reflexivity. }
    exact (run_statement_evaluated (H := host) (SExpr (EName "a")) "a"
             (shown "a = 2" +:+ shown "a") (VInt 2) w1 w1 eq_refl He eq_refl). }
  assert (Hf : for_statements (H := host)
                 [SAssign "a" (ENum 2); SExpr (EName "a")] EmptyString w
               = {| yielded := []; after := w1;
                    outcome := Returned (shown "a = 2" +:+ shown "a"
                                         +:+ "2" +:+ nl, false) |}).
  { rewrite (for_statements_cons_returned (H := host) _ _ _ (shown "a = 2") w)
      by (change (ast_unparse host (SAssign "a" (ENum 2))) with "a = 2";
          change (EmptyString +:+ shown "a = 2") with (shown "a = 2");
          rewrite H1; reflexivity).
    change (ast_unparse host (SAssign "a" (ENum 2))) with "a = 2".
    change (EmptyString +:+ shown "a = 2") with (shown "a = 2").
    rewrite H1. cbn [after].
    rewrite (for_statements_cons_returned (H := host) _ _ _
               (shown "a = 2" +:+ shown "a" +:+ "2" +:+ nl) w1)
      by (change (ast_unparse host (SExpr (EName "a"))) with "a";
          rewrite H2; reflexivity).
    change (ast_unparse host (SExpr (EName "a"))) with "a".
    rewrite H2. reflexivity. }
  intros r. subst r.
  rewrite (execute_python_parsed (H := host) _
             [SAssign "a" (ENum 2); SExpr (EName "a")]
             (shown "a = 2" +:+ shown "a" +:+ "2" +:+ nl) false w);
    [rewrite Hf; repeat split; reflexivity
    | vm_compute; reflexivity
    | rewrite Hf; reflexivity].
Qed.

End MiniPyFacts.

Lemma python_print_adds_no_line_witness :
  _execute_python (H := MiniPy.host) "print(1)" false (MiniPy.fresh [])
  = one_reply (system (">>> print(1)" +:+ nl))
      (write_stdout Printed ("1" +:+ nl) (MiniPy.fresh [])).
Proof.
  apply (python_print_adds_no_line (MiniPy.fresh [])). reflexivity.
Defined.




(** Two more inputs on which the stated transcript is not the one given:
    the statement is shown in canonical text, not as it was typed, and a
    value that is false as a condition, such as 0, adds no line. *)
Example python_expression_canonical_text :
  yielded (_execute_python (H := MiniPy.host) "1+1" false (MiniPy.fresh []))
  = [system (">>> 1 + 1" +:+ nl +:+ "2" +:+ nl)]
  /\ yielded (_execute_python (H := MiniPy.host) "0" false (MiniPy.fresh []))
     = [system (">>> 0" +:+ nl)].
Proof. split; vm_compute; reflexivity. Qed.

(** ** The shell executor *)

Section ShellFacts.
Context {H : Host}.




(** With confirmation required and an answer that agrees, the executor
    goes on as it does without confirmation, in the world after the prompt. *)
Lemma shell_confirmed
    (cmd c : string) (rest : list string) (w : World (PyState H)) :
  stdin w = c :: rest ->
  agrees c = true ->
  exists w1, _execute_shell cmd true w = _execute_shell cmd false w1
             /\ stdin w1 = rest /\ files w1 = files w /\ py w1 = py w.
Proof.
  intros Hin Hc. unfold agrees in Hc. eexists. split.
  - unfold _execute_shell, _print_preview. cbv zeta.
    etransitivity.
    { eapply bind_returned; [run_returned|].
      cbv beta. unfold answered. rewrite Hc. reflexivity. }
    symmetry. etransitivity.
    { eapply bind_returned; [reflexivity|]. reflexivity. }
    reflexivity.
  - unfold set_stdin. cbn [stdin files py].
    rewrite !files_write_stdout, !py_write_stdout. repeat split; reflexivity.
Qed.

(** With an answer that declines, the executor yields no reply. *)
Lemma shell_declined
    (cmd c : string) (rest : list string) (w : World (PyState H)) :
  stdin w = c :: rest ->
  agrees c = false ->
  yielded (_execute_shell cmd true w) = []
  /\ outcome (_execute_shell cmd true w) = Returned tt.
Proof.
  intros Hin Hc. unfold agrees in Hc.
  assert (Hrun : exists w', _execute_shell cmd true w
                            = {| yielded := []; after := w';
                                 outcome := Returned tt |}).
  { eexists. unfold _execute_shell, _print_preview. cbv zeta.
    etransitivity.
    { eapply bind_returned; [run_returned|].
      cbv beta. unfold answered. rewrite Hc. reflexivity. }
    reflexivity. }
  destruct Hrun as (w' & ->). split; reflexivity.
Qed.

End ShellFacts.


(** ** The save handler *)

Section SaveFacts.
Context {H : Host}.

Lemma split_cons (c : ascii) (s : string) : exists h t, split c s = h :: t.
Proof.
  induction s as [|a s (h & t & IH)]; [eexists _, _; reflexivity|].
  cbn [split]. destruct (Ascii.eqb a c); [eexists _, _; reflexivity|].
  rewrite IH. eexists _, _; reflexivity.
Qed.

Lemma split_second (c : ascii) (s : string) :
  contains_char c s = true -> exists part, split c s !! 1%nat = Some part.
Proof.
  induction s as [|a s IH]; [discriminate|].
  cbn [contains_char split]. destruct (Ascii.eqb a c); cbn [orb].
  - intros _. destruct (split_cons c s) as (h & t & ->). exists h. reflexivity.
  - intros Hs. destruct (IH Hs) as (part & Hpart).
    destruct (split c s) as [|h [|h' t]]; try discriminate.
    exists part. exact Hpart.
Qed.

Lemma contains_char_lstrip (c : ascii) (s : string) :
  contains_char c (lstrip s) = true -> contains_char c s = true.
Proof.
  induction s as [|a s IH]; [discriminate|].
  cbn [lstrip]. destruct (isspace a); [|exact (fun Hc => Hc)].
  intros Hc. cbn [contains_char]. rewrite (IH Hc). apply orb_true_r.
Qed.

Lemma contains_char_rstrip (c : ascii) (s : string) :
  contains_char c (rstrip s) = true -> contains_char c s = true.
Proof.
  induction s as [|a s IH]; [discriminate|].
  cbn [rstrip]. destruct (isspace a && isempty (rstrip s)); [discriminate|].
  cbn [contains_char]. destruct (Ascii.eqb a c); [reflexivity|].
  cbn [orb]. exact IH.
Qed.

Lemma contains_char_prefix (c : ascii) (p s : string) :
  contains_char c p = true -> startswith s p = true -> contains_char c s = true.
Proof.
  revert s. induction p as [|a p IH]; intros s; [discriminate|].
  destruct s as [|b s]; [discriminate|].
  cbn [contains_char startswith].
  destruct (Ascii.eqb_spec a b) as [->|]; [|discriminate].
  cbn [andb]. destruct (Ascii.eqb b c); [reflexivity|].
  cbn [orb]. apply IH.
Qed.

(** Every save directive names a file: the text after its first colon. *)
Lemma save_directive_target (line : string) :
  startswith (strip line) "// save:" = true ->
  exists part, split ":" line !! 1%nat = Some part
               /\ save_target line = Some (strip part).
Proof.
  intros Hd.
  assert (Hc : contains_char ":" line = true).
  { apply contains_char_lstrip, contains_char_rstrip.
    exact (contains_char_prefix ":" "// save:" _ eq_refl Hd). }
  destruct (split_second ":" line Hc) as (part & Hpart).
  exists part. split; [exact Hpart|].
  unfold save_target. rewrite Hd, Hpart. reflexivity.
Qed.


Lemma write_file_refused (filename content : string) (e : Exn)
    (w : World (PyState H)) :
  open_error H filename (files w) = Some e ->
  write_file filename content w
  = {| yielded := []; after := w; outcome := Raised e |}.
Proof. intros Hf. unfold write_file. rewrite Hf. reflexivity. Qed.

Lemma write_file_written (filename content : string) (w : World (PyState H)) :
  open_error H filename (files w) = None ->
  write_file filename content w
  = {| yielded := [];
       after := {| stdin := stdin w; console := console w;
                   redirect := redirect w;
                   files := <[filename := content]> (files w);
                   py := py w |};
       outcome := Returned tt |}.
Proof. intros Hf. unfold write_file. rewrite Hf. reflexivity. Qed.






End SaveFacts.


(** The same text with the answers [n] and then [y] for a second
    directive: both replies, one file. *)
Example save_two_directives :
  let text := fence +:+ "python" +:+ nl +:+ "x = 1" +:+ nl +:+ fence +:+ nl
              +:+ "// save: a.py" +:+ nl +:+ "// save: b.py" in
  let r := _execute_save (H := MiniPy.host) text true (MiniPy.fresh ["n"; "y"]) in
  yielded r = [saved_to "a.py"; saved_to "b.py"]
  /\ map_to_list (files (after r)) = [("b.py", "x = 1")].
Proof. split; vm_compute; reflexivity. Qed.

(** ** More on the statement interpreter *)

(** Where the description of the executor ends: after [ast = 1] the
    executor finds the number where it looks for the module [ast], and
    what it does then (here [ast.unparse] raises an [AttributeError] that
    nothing catches) is not followed. After [x = 1] it goes on. *)
Example rebinding_is_not_followed :
  outcome (_execute_python (H := MiniPy.host)
             ("ast = 1" +:+ nl +:+ "2") false (MiniPy.fresh []))
  = Unmodelled
  /\ outcome (_execute_python (H := MiniPy.host)
                ("x = 1" +:+ nl +:+ "2") false (MiniPy.fresh []))
     = Returned tt.
Proof. split; vm_compute; reflexivity. Qed.

Section RaisingGenerators.
Context {Py : Type}.

Lemma bind_then_raised {A B} (m : Gen Py A) (k : A -> Gen Py B)
    w ys w' a ys' w'' e :
  m w = {| yielded := ys; after := w'; outcome := Returned a |} ->
  k a w' = {| yielded := ys'; after := w''; outcome := Raised e |} ->
  bind m k w = {| yielded := ys ++ ys'; after := w''; outcome := Raised e |}.
Proof. intros Hm Hk. unfold bind. rewrite Hm. cbn. rewrite Hk. reflexivity. Qed.

End RaisingGenerators.

Section InterpreterEdges.
Context {H : Host}.

(** What the [try] around [ast.parse] gives when the parse succeeds. *)
Lemma parse_returned (code : string) (statements : list (Stmt H))
    (w : World (PyState H)) :
  ast_parse H code = Returned statements ->
  try_except
    (bind (fun w : World (PyState H) => Build_Run _ _ [] w (ast_parse H code))
       (fun statements => ret (Some statements)))
    "SyntaxError"
    (fun e => bind (yield (Build_Message "system" ("SyntaxError: " +:+ exn_text e)))
                (fun _ => ret None)) w
  = {| yielded := []; after := w; outcome := Returned (Some statements) |}.
Proof.
  intros Hp. unfold try_except, bind, ret. cbn [outcome yielded after].
  rewrite Hp. reflexivity.
Qed.

(** What it gives when the parse raises. *)
Lemma parse_raised (code : string) (e : Exn) (w : World (PyState H)) :
  ast_parse H code = Raised e ->
  try_except
    (bind (fun w : World (PyState H) => Build_Run _ _ [] w (ast_parse H code))
       (fun statements => ret (Some statements)))
    "SyntaxError"
    (fun e => bind (yield (Build_Message "system" ("SyntaxError: " +:+ exn_text e)))
                (fun _ => ret None)) w
  = if isinstance_exn e "SyntaxError"
    then {| yielded := [system ("SyntaxError: " +:+ exn_text e)]; after := w;
            outcome := Returned (@None (list (Stmt H))) |}
    else {| yielded := []; after := w; outcome := Raised e |}.
Proof.
  intros Hp. unfold try_except, bind, ret. cbn [outcome yielded after].
  rewrite Hp. cbn [outcome yielded after].
  destruct (isinstance_exn e "SyntaxError"); reflexivity.
Qed.

(** A source that does not parse gives one reply, the syntax error, and
    nothing else happens: no statement is run and the world is unchanged. *)
Theorem python_syntax_error_reply (code : string) (e : Exn)
    (w : World (PyState H)) :
  ast_parse H (strip code) = Raised e ->
  isinstance_exn e "SyntaxError" = true ->
  _execute_python code false w
  = one_reply (system ("SyntaxError: " +:+ exn_text e)) w.
Proof.
  intros Hp He. unfold _execute_python.
  rewrite (bind_returned _ _ w [] w None _ eq_refl eq_refl).
  cbv beta. cbn [negb orb].
  unfold bind at 1. rewrite (parse_raised _ _ _ Hp), He. reflexivity.
Qed.

(** A parse that fails with anything but a syntax error is not caught: the
    generator raises it and yields no reply. *)
Theorem python_parse_failure_propagates (code : string) (e : Exn)
    (w : World (PyState H)) :
  ast_parse H (strip code) = Raised e ->
  isinstance_exn e "SyntaxError" = false ->
  _execute_python code false w
  = {| yielded := []; after := w; outcome := Raised e |}.
Proof.
  intros Hp He. unfold _execute_python.
  rewrite (bind_returned _ _ w [] w None _ eq_refl eq_refl).
  cbv beta. cbn [negb orb].
  unfold bind at 1. rewrite (parse_raised _ _ _ Hp), He. reflexivity.
Qed.

(** With confirmation required and the answer [y] or [yes], in any case of
    letters, the source is run as it is without confirmation, in the
    world the prompt left: one line of input is gone, and neither the
    files nor the environment have changed before the run. *)
Theorem python_confirmed
    (code c : string) (rest : list string) (w : World (PyState H)) :
  stdin w = c :: rest ->
  str_in (lower c) ["y"; "yes"] = true ->
  exists w1, _execute_python code true w = _execute_python code false w1
             /\ stdin w1 = rest /\ files w1 = files w /\ py w1 = py w.
Proof.
  intros Hin Hc. eexists. split.
  - unfold _execute_python, _print_preview.
    etransitivity.
    { eapply bind_returned; [run_returned|].
      cbv beta. unfold answered. rewrite Hc. reflexivity. }
    symmetry. etransitivity.
    { eapply bind_returned; [reflexivity|]. reflexivity. }
    reflexivity.
  - unfold set_stdin. cbn [stdin files py].
    rewrite !files_write_stdout, !py_write_stdout. repeat split; reflexivity.
Qed.

(** With confirmation required, every answer other than [y] and [yes]
    gives the reply that the command was aborted, and the source is not
    run: the files and the environment are as before. *)
Theorem python_other_answer_aborts
    (code c : string) (rest : list string) (w : World (PyState H)) :
  stdin w = c :: rest ->
  str_in (lower c) ["y"; "yes"] = false ->
  let r := _execute_python code true w in
  yielded r = [aborted] /\ outcome r = Returned tt
  /\ py (after r) = py w /\ files (after r) = files w
  /\ stdin (after r) = rest.
Proof.
  intros Hin Hc r.
  destruct (python_declined code c rest w Hin Hc) as (w' & Hrun & Hp & Hf & Hs).
  subst r. rewrite Hrun. repeat split; assumption.
Qed.

(** When there is no line to read, the confirmation raises [EOFError]:
    no reply is yielded and the source is not run. *)
Theorem python_no_answer_raises (code : string) (w : World (PyState H)) :
  stdin w = [] ->
  let r := _execute_python code true w in
  yielded r = []
  /\ outcome r = Raised (std_exn "EOFError" [] "EOF when reading a line")
  /\ py (after r) = py w /\ files (after r) = files w.
Proof.
  intros Hin r. subst r. unfold _execute_python, _print_preview.
  erewrite bind_raised.
  2:{ eapply bind_then_raised; [reflexivity|].
      eapply bind_then_raised; [reflexivity|].
      eapply bind_raised. eapply input_eof.
      rewrite !stdin_write_stdout. exact Hin. }
  cbn [yielded outcome after].
  rewrite !files_write_stdout, !py_write_stdout. repeat split; reflexivity.
Qed.

(** One turn of the loop when the statement raises something that is not
    an [Exception]. *)
Lemma try_statement_propagates
    (stmt : Stmt H) (stmt_str output : string) e (w : World (PyState H)) :
  outcome (run_statement stmt stmt_str output w) = Raised e ->
  isinstance_exn e "Exception" = false ->
  try_statement stmt stmt_str output w
  = {| yielded := []; after := after (run_statement stmt stmt_str output w);
       outcome := Raised e |}.
Proof.
  intros Ho He. unfold try_statement, try_except, bind, ret.
  rewrite Ho. cbn [yielded after outcome]. rewrite He.
  rewrite run_statement_yields. reflexivity.
Qed.

Lemma statement_failure_escapes
    (code : string) (pre post : list (Stmt H)) (stmt : Stmt H)
    (out1 : string) (e : Exn) (w : World (PyState H)) :
  ast_parse H (strip code) = Returned (pre ++ stmt :: post) ->
  outcome (for_statements pre EmptyString w) = Returned (out1, false) ->
  let w1 := after (for_statements pre EmptyString w) in
  let failing := run_statement stmt (ast_unparse H stmt)
                   (out1 +:+ shown (ast_unparse H stmt)) w1 in
  outcome failing = Raised e ->
  isinstance_exn e "Exception" = false ->
  _execute_python code false w
  = {| yielded := []; after := after failing; outcome := Raised e |}.
Proof.
  intros Hp Hpre w1 failing Hfail He.
  assert (Hf : for_statements (pre ++ stmt :: post) EmptyString w
               = {| yielded := []; after := after failing;
                    outcome := Raised e |}).
  { rewrite (for_statements_app pre (stmt :: post) _ out1 w Hpre).
    fold w1. cbn [for_statements]. fold (shown (ast_unparse H stmt)).
    unfold bind.
    rewrite (try_statement_propagates _ _ _ _ _ Hfail He). reflexivity. }
  unfold _execute_python.
  rewrite (bind_returned _ _ w [] w None _ eq_refl eq_refl).
  cbv beta. cbn [negb orb].
  erewrite (bind_returned _ _ w [] w (Some (pre ++ stmt :: post)));
    [|apply parse_returned; exact Hp|reflexivity].
  cbv beta iota. erewrite bind_raised; [|exact Hf]. reflexivity.
Qed.


(** A statement that raises something that is not an [Exception], as
    [exit()] or an interrupt does, is not caught by the loop: the
    generator raises it, and the transcript gathered so far is lost, no
    reply being yielded. *)
Theorem python_base_exception_propagates
    (code : string) (pre post : list (Stmt H)) (stmt : Stmt H)
    (out1 : string) (e : Exn) (w : World (PyState H)) :
  ast_parse H (strip code) = Returned (pre ++ stmt :: post) ->
  outcome (for_statements pre EmptyString w) = Returned (out1, false) ->
  let w1 := after (for_statements pre EmptyString w) in
  let failing := run_statement stmt (ast_unparse H stmt)
                   (out1 +:+ shown (ast_unparse H stmt)) w1 in
  outcome failing = Raised e ->
  isinstance_exn e "Exception" = false ->
  _execute_python code false w
  = {| yielded := []; after := after failing; outcome := Raised e |}.
Proof. exact (statement_failure_escapes code pre post stmt out1 e w). Qed.

(** A source without statements gives one reply, with empty content. *)
Theorem python_no_statements (code : string) (w : World (PyState H)) :
  ast_parse H (strip code) = Returned [] ->
  _execute_python code false w = one_reply (system EmptyString) w.
Proof.
  intros Hp.
  rewrite (execute_python_parsed code [] EmptyString false w Hp eq_refl).
  reflexivity.
Qed.

End InterpreterEdges.

Lemma python_syntax_error_reply_witness :
  _execute_python (H := MiniPy.host) "a = (" false (MiniPy.fresh [])
  = one_reply (system ("SyntaxError: " +:+ "invalid syntax (<unknown>, line 1)"))
      (MiniPy.fresh []).
Proof.
  apply (python_syntax_error_reply (H := MiniPy.host) "a = ("
           (MiniPy.syntax_error "SyntaxError" [] "invalid syntax" "<unknown>" 1)
           (MiniPy.fresh []));
    vm_compute; reflexivity.
Defined.

Lemma python_parse_failure_propagates_witness :
  _execute_python (H := interrupting_host) (String NUL EmptyString) false
    (MiniPy.fresh [])
  = {| yielded := []; after := MiniPy.fresh [];
       outcome := Raised (std_exn "ValueError" []
                            "source code string cannot contain null bytes") |}.
Proof.
  apply (python_parse_failure_propagates (H := interrupting_host)
           (String NUL EmptyString)
           (std_exn "ValueError" [] "source code string cannot contain null bytes")
           (MiniPy.fresh []));
    vm_compute; reflexivity.
Defined.

Lemma python_confirmed_witness :
  exists w1,
    _execute_python (H := MiniPy.host) "1 + 1" true (MiniPy.fresh ["YES"])
    = _execute_python (H := MiniPy.host) "1 + 1" false w1
    /\ stdin w1 = [] /\ files w1 = files (MiniPy.fresh ["YES"])
    /\ py w1 = py (MiniPy.fresh ["YES"]).
Proof.
  apply (python_confirmed (H := MiniPy.host) "1 + 1" "YES" []
           (MiniPy.fresh ["YES"])); reflexivity.
Defined.

Lemma python_other_answer_aborts_witness :
  let w := MiniPy.fresh ["no"] in
  let r := _execute_python (H := MiniPy.host) "1 + 1" true w in
  yielded r = [aborted] /\ outcome r = Returned tt
  /\ py (after r) = py w /\ files (after r) = files w
  /\ stdin (after r) = [].
Proof.
  apply (python_other_answer_aborts (H := MiniPy.host) "1 + 1" "no" []
           (MiniPy.fresh ["no"])); reflexivity.
Defined.

Lemma python_no_answer_raises_witness :
  let w := MiniPy.fresh [] in
  let r := _execute_python (H := MiniPy.host) "1 + 1" true w in
  yielded r = []
  /\ outcome r = Raised (std_exn "EOFError" [] "EOF when reading a line")
  /\ py (after r) = py w /\ files (after r) = files w.
Proof.
  apply (python_no_answer_raises (H := MiniPy.host) "1 + 1" (MiniPy.fresh [])).
  reflexivity.
Defined.

Lemma python_base_exception_propagates_witness :
  let code := "a = 1" +:+ nl +:+ "b" in
  let w := MiniPy.fresh [] in
  let failing := run_statement (H := interrupting_host)
                   (MiniPy.SExpr (MiniPy.EName "b")) "b"
                   (shown "a = 1" +:+ shown "b")
                   (after (for_statements (H := interrupting_host)
                             [MiniPy.SAssign "a" (MiniPy.ENum 1)] EmptyString w)) in
  _execute_python (H := interrupting_host) code false w
  = {| yielded := []; after := after failing; outcome := Raised interrupted |}.
Proof.
  apply (python_base_exception_propagates (H := interrupting_host)
           ("a = 1" +:+ nl +:+ "b")
           [MiniPy.SAssign "a" (MiniPy.ENum 1)] []
           (MiniPy.SExpr (MiniPy.EName "b"))
           (shown "a = 1") interrupted (MiniPy.fresh []));
    vm_compute; reflexivity.
Defined.

Lemma python_no_statements_witness :
  _execute_python (H := MiniPy.host) "  " false (MiniPy.fresh [])
  = one_reply (system EmptyString) (MiniPy.fresh []).
Proof.
  apply (python_no_statements (H := MiniPy.host) "  " (MiniPy.fresh [])).
  vm_compute. reflexivity.
Defined.

(** ** More on the load handler *)

Section LoadFacts.
Context {H : Host}.

Lemma path_exists_found (filename data : string) (w : World (PyState H)) :
  files w !! filename = Some data ->
  path_exists filename w
  = {| yielded := []; after := w; outcome := Returned true |}.
Proof. intros Hf. unfold path_exists. rewrite Hf. reflexivity. Qed.

Lemma load_found
    (filename data c : string) (rest : list string) (w : World (PyState H)) :
  files w !! filename = Some data ->
  stdin w = c :: rest ->
  agrees c = true ->
  let r := _execute_load filename w in
  yielded r = [loaded filename data] /\ outcome r = Returned tt
  /\ files (after r) = files w /\ stdin (after r) = rest.
Proof.
  intros Hf Hin Hc r. unfold agrees in Hc.
  assert (Hrun : r = _execute_load filename w) by reflexivity.
  unfold _execute_load in Hrun.
  erewrite bind_returned in Hrun; [|exact (path_exists_found _ _ _ Hf)|].
  2:{ cbv beta iota. cbn [negb]. eapply bind_returned; [reflexivity|].
      cbv beta. eapply bind_returned; [apply input_line; exact Hin|].
      cbv beta. rewrite Hc. eapply bind_returned; [|reflexivity].
      unfold read_file. cbn [set_stdin files]. rewrite files_write_stdout, Hf.
      reflexivity. }
  rewrite Hrun. cbn [after_yields yielded after outcome app yield set_stdin
                       files stdin].
  rewrite files_write_stdout. repeat split; reflexivity.
Qed.

(** For a file that exists and an answer that agrees, the load handler
    yields one reply, the name of the file and what it holds; it takes
    one line of input and leaves the files as they were. *)
Theorem load_existing_file
    (filename data c : string) (rest : list string) (w : World (PyState H)) :
  files w !! filename = Some data ->
  stdin w = c :: rest ->
  agrees c = true ->
  let r := _execute_load filename w in
  yielded r = [loaded filename data] /\ outcome r = Returned tt
  /\ files (after r) = files w /\ stdin (after r) = rest.
Proof. exact (load_found filename data c rest w). Qed.

(** For a file that exists and an answer that declines, the load handler
    yields no reply at all. *)
Theorem load_declined
    (filename data c : string) (rest : list string) (w : World (PyState H)) :
  files w !! filename = Some data ->
  stdin w = c :: rest ->
  agrees c = false ->
  let r := _execute_load filename w in
  yielded r = [] /\ outcome r = Returned tt
  /\ files (after r) = files w /\ stdin (after r) = rest.
Proof.
  intros Hf Hin Hc r. unfold agrees in Hc.
  assert (Hrun : r = _execute_load filename w) by reflexivity.
  unfold _execute_load in Hrun.
  erewrite bind_returned in Hrun; [|exact (path_exists_found _ _ _ Hf)|].
  2:{ cbv beta iota. cbn [negb]. eapply bind_returned; [reflexivity|].
      cbv beta. eapply bind_returned; [apply input_line; exact Hin|].
      cbv beta. rewrite Hc. reflexivity. }
  rewrite Hrun. cbn [after_yields yielded after outcome app ret set_stdin
                       files stdin].
  rewrite files_write_stdout. repeat split; reflexivity.
Qed.


End LoadFacts.

Lemma load_existing_file_witness :
  let w := {| stdin := ["Y"]; console := []; redirect := [];
              files := {["notes.txt" := "remember"]}; py := ∅ |} in
  let r := _execute_load (H := MiniPy.host) "notes.txt" w in
  yielded r = [loaded "notes.txt" "remember"] /\ outcome r = Returned tt
  /\ files (after r) = files w /\ stdin (after r) = [].
Proof.
  apply (load_existing_file (H := MiniPy.host) "notes.txt" "remember" "Y" []
           {| stdin := ["Y"]; console := []; redirect := [];
              files := {["notes.txt" := "remember"]}; py := ∅ |});
    reflexivity.
Defined.

Lemma load_declined_witness :
  let w := {| stdin := ["n"]; console := []; redirect := [];
              files := {["notes.txt" := "remember"]}; py := ∅ |} in
  let r := _execute_load (H := MiniPy.host) "notes.txt" w in
  yielded r = [] /\ outcome r = Returned tt
  /\ files (after r) = files w /\ stdin (after r) = [].
Proof.
  apply (load_declined (H := MiniPy.host) "notes.txt" "remember" "n" []
           {| stdin := ["n"]; console := []; redirect := [];
              files := {["notes.txt" := "remember"]}; py := ∅ |});
    reflexivity.
Defined.


(** ** More on the string methods *)

Section MoreStringFacts.

Lemma rstrip_app_blank (s p : string) :
  isempty (rstrip p) = true -> rstrip (s +:+ p) = rstrip s.
Proof.
  intros Hp. induction s as [|c s IH].
  - change (EmptyString +:+ p) with p. destruct (rstrip p); [reflexivity|discriminate].
  - change (String c s +:+ p) with (String c (s +:+ p)).
    cbn [rstrip]. rewrite IH. reflexivity.
Qed.

Lemma rstrip_line_end (s : string) : rstrip (s +:+ nl) = rstrip s.
Proof. apply rstrip_app_blank. reflexivity. Qed.

Lemma startswith_app_l (s t p : string) :
  startswith s p = true -> startswith (s +:+ t) p = true.
Proof.
  revert s. induction p as [|a p IH]; intros s; [reflexivity|].
  destruct s as [|b s]; [discriminate|].
  change (String b s +:+ t) with (String b (s +:+ t)).
  cbn [startswith]. destruct (Ascii.eqb a b); [|discriminate].
  cbn [andb]. apply IH.
Qed.

Lemma slice_from_suffix (n : nat) (s : string) :
  exists a, s = a +:+ slice_from n s.
Proof.
  revert s. induction n as [|n IH]; intros s; [exists EmptyString; reflexivity|].
  destruct s as [|c s]; [exists EmptyString; reflexivity|].
  destruct (IH s) as (a & Ha). exists (String c a).
  cbn [slice_from]. change (String c a +:+ slice_from n s)
    with (String c (a +:+ slice_from n s)). rewrite <- Ha. reflexivity.
Qed.

(** [s.endswith(p)] says that [s] is some text followed by [p]. *)
Lemma endswith_true (s p : string) :
  endswith s p = true <-> exists a, s = a +:+ p.
Proof.
  split.
  - unfold endswith. intros Hs. apply andb_true_iff in Hs as [_ Hs].
    apply String.eqb_eq in Hs.
    destruct (slice_from_suffix (String.length s - String.length p) s) as (a & Ha).
    exists a. rewrite Hs in Ha. exact Ha.
  - intros (a & ->). apply endswith_app.
Qed.

Lemma contains_char_app (c : ascii) (s t : string) :
  contains_char c (s +:+ t) = contains_char c s || contains_char c t.
Proof.
  induction s as [|a s IH]; [reflexivity|].
  change (String a s +:+ t) with (String a (s +:+ t)).
  cbn [contains_char]. rewrite IH, orb_assoc. reflexivity.
Qed.

(** A fence at the end of a text that has a line end in it lies after the
    line end. *)
Lemma ends_with_fence_after_line_end (x b : string) :
  (exists a, x +:+ nl +:+ b = a +:+ fence) -> exists a, b = a +:+ fence.
Proof.
  induction x as [|y x IH]; intros (a & Ha).
  - change (EmptyString +:+ nl +:+ b) with (String LF b) in Ha.
    destruct a as [|c a].
    + discriminate Ha.
    + change (String c a +:+ fence) with (String c (a +:+ fence)) in Ha.
      injection Ha as _ Ha. exists a. exact Ha.
  - change (String y x +:+ nl +:+ b) with (String y (x +:+ nl +:+ b)) in Ha.
    destruct a as [|c a].
    + exfalso. apply (f_equal (contains_char LF)) in Ha.
      cbn [contains_char] in Ha. rewrite contains_char_app in Ha.
      change (contains_char LF (nl +:+ b)) with true in Ha.
      rewrite orb_true_r, orb_true_r in Ha. discriminate Ha.
    + change (String c a +:+ fence) with (String c (a +:+ fence)) in Ha.
      injection Ha as _ Ha. apply IH. exists a. exact Ha.
Qed.

Lemma endswith_after_line_end (x b : string) :
  endswith (x +:+ nl +:+ b) fence = endswith b fence.
Proof.
  destruct (endswith b fence) eqn:Hb.
  - apply endswith_true in Hb as (a & ->). apply endswith_true.
    exists (x +:+ nl +:+ a). rewrite !append_assoc. reflexivity.
  - destruct (endswith (x +:+ nl +:+ b) fence) eqn:Hx; [|reflexivity].
    apply endswith_true, ends_with_fence_after_line_end, endswith_true in Hx.
    rewrite Hx in Hb. discriminate Hb.
Qed.

(** [split] at the line ends of a text made of whole lines. *)
Lemma split_first_line (line rest : string) :
  contains_char LF line = false ->
  split LF (line +:+ nl +:+ rest) = line :: split LF rest.
Proof.
  induction line as [|a line IH]; intros Hl.
  - reflexivity.
  - change (String a line +:+ nl +:+ rest) with (String a (line +:+ nl +:+ rest)).
    cbn [contains_char] in Hl. apply orb_false_iff in Hl as [Ha Hl].
    cbn [split]. rewrite Ha, (IH Hl). reflexivity.
Qed.

Lemma split_with_line_ends (lines : list string) :
  Forall (fun line => contains_char LF line = false) lines ->
  split LF (with_line_ends lines) = lines ++ [EmptyString].
Proof.
  induction 1 as [|line lines Hl _ IH]; [reflexivity|].
  cbn [with_line_ends]. rewrite (split_first_line _ _ Hl), IH. reflexivity.
Qed.

Lemma with_line_ends_app (lines more : list string) :
  with_line_ends (lines ++ more) = with_line_ends lines +:+ with_line_ends more.
Proof.
  induction lines as [|line lines IH]; [reflexivity|].
  cbn [app with_line_ends]. rewrite IH, !append_assoc. reflexivity.
Qed.

(** What is saved for a block of whole lines: the lines between the first
    and the last. *)
Lemma block_content_lines (first last : string) (body : list string) :
  Forall (fun line => contains_char LF line = false) (first :: body ++ [last]) ->
  block_content (with_line_ends (first :: body ++ [last])) = join nl body.
Proof.
  intros Hl. unfold block_content. rewrite (split_with_line_ends _ Hl).
  f_equal. unfold slice_1_m2.
  replace (length ((first :: body ++ [last]) ++ [EmptyString]) - 2)
    with (length (first :: body))
    by (cbn [length app]; rewrite !length_app; cbn [length]; lia).
  replace ((first :: body ++ [last]) ++ [EmptyString])
    with ((first :: body) ++ [last; EmptyString])
    by (cbn [app]; rewrite <- app_assoc; reflexivity).
  rewrite take_app_length. reflexivity.
Qed.

End MoreStringFacts.

(** ** What the save handler writes *)

Section SaveContent.
Context {H : Host}.

(** At a line that is no directive the loop only scans. *)
Lemma save_lines_plain
    (line : string) (rest : list string) (prev cb : string)
    (w : World (PyState H)) :
  plain_line line = true ->
  save_lines (line :: rest) prev cb w
  = save_lines rest (fst (scan_line line (prev, cb)))
      (snd (scan_line line (prev, cb))) w.
Proof.
  unfold plain_line. intros Hp. apply negb_true_iff in Hp.
  cbn [save_lines]. rewrite Hp.
  rewrite (bind_returned _ _ w [] w tt _ eq_refl eq_refl).
  unfold after_yields. cbn [app]. rewrite run_eta.
  unfold scan_line.
  destruct (startswith line fence || negb (isempty cb));
    [destruct (startswith (cb +:+ line +:+ nl) fence
               && endswith (strip (cb +:+ line +:+ nl)) fence)|];
    reflexivity.
Qed.

(** At a directive the block scanned before is saved, then the line is
    scanned like any other. *)
Lemma save_lines_directive
    (line : string) (rest : list string) (prev cb : string)
    (w : World (PyState H)) :
  plain_line line = false ->
  save_lines (line :: rest) prev cb w
  = bind (save_directive line prev)
      (fun _ => save_lines rest (fst (scan_line line (prev, cb)))
                  (snd (scan_line line (prev, cb)))) w.
Proof.
  unfold plain_line. intros Hp. apply negb_false_iff in Hp.
  cbn [save_lines]. rewrite Hp. unfold scan_line.
  destruct (startswith line fence || negb (isempty cb));
    [destruct (startswith (cb +:+ line +:+ nl) fence
               && endswith (strip (cb +:+ line +:+ nl)) fence)|];
    reflexivity.
Qed.

Lemma save_lines_plain_lines
    (lines rest : list string) (prev cb : string) (w : World (PyState H)) :
  Forall (fun line => plain_line line = true) lines ->
  save_lines (lines ++ rest) prev cb w
  = save_lines rest (fst (scan_lines lines (prev, cb)))
      (snd (scan_lines lines (prev, cb))) w.
Proof.
  intros Hall. revert prev cb.
  induction Hall as [|line lines Hl _ IH]; intros prev cb; [reflexivity|].
  cbn [app]. rewrite (save_lines_plain _ _ _ _ _ Hl).
  rewrite IH. unfold scan_lines. cbn [fold_left].
  destruct (scan_line line (prev, cb)); reflexivity.
Qed.

(** The directive when the answer agrees: the file is written with the
    content of the block scanned before. *)
Lemma save_directive_agreed
    (line prev part c : string) (rest : list string) (w : World (PyState H)) :
  split ":" line !! 1%nat = Some part ->
  open_error H (strip part) (files w) = None ->
  stdin w = c :: rest ->
  agrees c = true ->
  exists w', save_directive line prev w = one_reply (saved_to (strip part)) w'
             /\ files w' = <[strip part := block_content prev]> (files w)
             /\ stdin w' = rest.
Proof.
  intros Hpart Hf Hin Hc. unfold agrees in Hc. eexists. split.
  - unfold save_directive, _print_preview. rewrite Hpart.
    etransitivity.
    { eapply bind_returned; [reflexivity|]. cbv beta.
      eapply bind_returned; [reflexivity|].
      eapply bind_returned; [reflexivity|].
      eapply bind_returned; [reflexivity|].
      eapply bind_returned;
        [eapply input_line; rewrite !stdin_write_stdout; exact Hin|].
      cbv beta. rewrite Hc. eapply bind_returned; [|reflexivity].
      apply write_file_written. cbn [files set_stdin].
      rewrite !files_write_stdout. exact Hf. }
    cbn [after_yields yielded after outcome app yield]. reflexivity.
  - cbn [files stdin set_stdin]. rewrite !files_write_stdout.
    split; reflexivity.
Qed.

(** A directive after lines that are none, answered with agreement, for
    a file that can be opened: one reply, and the file holds the content
    of the block that the scan of those lines has completed last. *)
Lemma save_lines_then_directive
    (lines : list string) (line prev cb f c : string) (rest : list string)
    (w : World (PyState H)) :
  Forall (fun line => plain_line line = true) lines ->
  save_target line = Some f ->
  open_error H f (files w) = None ->
  stdin w = c :: rest ->
  agrees c = true ->
  let r := save_lines (lines ++ [line]) prev cb w in
  yielded r = [saved_to f] /\ outcome r = Returned tt
  /\ files (after r)
     = <[f := block_content (fst (scan_lines lines (prev, cb)))]> (files w)
  /\ stdin (after r) = rest.
Proof.
  intros Hall Ht Hf Hin Hc r. subst r.
  rewrite (save_lines_plain_lines _ _ _ _ _ Hall).
  assert (Hd : startswith (strip line) "// save:" = true).
  { unfold save_target in Ht.
    destruct (startswith (strip line) "// save:"); [reflexivity|discriminate]. }
  destruct (save_directive_target line Hd) as (part & Hpart & Ht').
  rewrite Ht in Ht'. injection Ht' as ->.
  rewrite save_lines_directive by (unfold plain_line; rewrite Hd; reflexivity).
  destruct (save_directive_agreed line
              (fst (scan_lines lines (prev, cb))) part c rest w Hpart Hf Hin Hc)
    as (w' & Hrun & Hfiles & Hrest).
  rewrite (bind_returned _ _ w _ w' tt _ Hrun eq_refl).
  cbn [after_yields save_lines ret yielded after outcome app].
  repeat split; first [reflexivity | exact Hfiles | exact Hrest].
Qed.

(** The directive when the answer agrees and the file cannot be opened:
    [open] raises, nothing is written and there is no reply. *)
Lemma save_directive_refused
    (line prev part c : string) (rest : list string) (e : Exn)
    (w : World (PyState H)) :
  split ":" line !! 1%nat = Some part ->
  open_error H (strip part) (files w) = Some e ->
  stdin w = c :: rest ->
  agrees c = true ->
  exists w', save_directive line prev w
             = {| yielded := []; after := w'; outcome := Raised e |}
             /\ files w' = files w.
Proof.
  intros Hpart Hf Hin Hc. unfold agrees in Hc. eexists. split.
  - unfold save_directive, _print_preview. rewrite Hpart.
    etransitivity.
    { eapply bind_returned; [reflexivity|]. cbv beta.
      eapply bind_returned; [reflexivity|].
      eapply bind_returned; [reflexivity|].
      eapply bind_returned; [reflexivity|].
      eapply bind_returned;
        [eapply input_line; rewrite !stdin_write_stdout; exact Hin|].
      cbv beta. rewrite Hc. eapply bind_raised.
      apply write_file_refused. cbn [files set_stdin].
      rewrite !files_write_stdout. exact Hf. }
    cbn [after_yields yielded after outcome app]. reflexivity.
  - cbn [after_yields after files set_stdin].
    rewrite !files_write_stdout. reflexivity.
Qed.

End SaveContent.

(** ** The scan for fenced blocks *)

Section ScanFacts.

Lemma fenced_cons (s : string) :
  startswith s fence = true -> exists r, s = String "`" r.
Proof.
  destruct s as [|c r]; [discriminate|]. cbn [fence startswith].
  destruct (Ascii.eqb_spec "`" c) as [<-|]; [|discriminate].
  intros _. exists r. reflexivity.
Qed.

Lemma strip_fenced (s : string) :
  startswith s fence = true -> strip s = rstrip s.
Proof. intros (r & ->)%fenced_cons. reflexivity. Qed.

Lemma plain_fenced (s : string) :
  startswith s fence = true -> plain_line s = true.
Proof.
  intros Hs. unfold plain_line. rewrite (strip_fenced _ Hs).
  destruct (fenced_cons _ Hs) as (r & ->). reflexivity.
Qed.

(** Outside a block, lines that do not begin with a fence change nothing. *)
Lemma scan_outside (lines : list string) (prev : string) :
  Forall (fun line => startswith line fence = false) lines ->
  scan_lines lines (prev, EmptyString) = (prev, EmptyString).
Proof.
  induction 1 as [|line lines Hl _ IH]; [reflexivity|].
  unfold scan_lines. cbn [fold_left]. unfold scan_line at 2.
  rewrite Hl. cbn [isempty negb orb]. exact IH.
Qed.

(** A line that is a fence and nothing else is a block of its own. *)
Lemma scan_bare_fence (prev : string) :
  scan_line fence (prev, EmptyString) = (fence +:+ nl, EmptyString).
Proof. reflexivity. Qed.

(** The line that opens a block with a tag. *)
Lemma scan_header (header prev : string) :
  startswith header fence = true ->
  open_line header = true ->
  scan_line header (prev, EmptyString) = (prev, header +:+ nl)
  /\ gathering (header +:+ nl).
Proof.
  intros Hs Ho. unfold open_line in Ho. apply negb_true_iff in Ho.
  assert (Hg : gathering (header +:+ nl)).
  { repeat split.
    - apply startswith_app_l. exact Hs.
    - exists header. reflexivity.
    - rewrite rstrip_line_end. exact Ho. }
  split; [|exact Hg].
  unfold scan_line. rewrite Hs. cbn [orb].
  change (EmptyString +:+ header +:+ nl) with (header +:+ nl).
  destruct Hg as (Hs' & _ & He).
  rewrite Hs', (strip_fenced _ Hs'), He. reflexivity.
Qed.

(** A line inside a block that cannot close it is added to the buffer. *)
Lemma scan_open_line (line prev acc : string) :
  gathering acc ->
  open_line line = true ->
  scan_line line (prev, acc) = (prev, acc +:+ line +:+ nl)
  /\ gathering (acc +:+ line +:+ nl).
Proof.
  intros (Hs & (a & Ha) & He) Ho. unfold open_line in Ho.
  apply negb_true_iff in Ho.
  assert (Hg : gathering (acc +:+ line +:+ nl)).
  { repeat split.
    - apply startswith_app_l. exact Hs.
    - exists (acc +:+ line). rewrite append_assoc. reflexivity.
    - destruct (isempty (rstrip line)) eqn:Hb.
      + rewrite rstrip_app_blank by (rewrite rstrip_line_end; exact Hb).
        exact He.
      + rewrite rstrip_app_nonblank by (rewrite rstrip_line_end; exact Hb).
        rewrite rstrip_line_end, Ha, append_assoc.
        rewrite endswith_after_line_end. exact Ho. }
  split; [|exact Hg].
  unfold scan_line.
  assert (Hne : isempty acc = false)
    by (destruct (fenced_cons _ Hs) as (r & ->); reflexivity).
  rewrite Hne. cbn [negb]. rewrite orb_true_r.
  destruct Hg as (Hs' & _ & He').
  rewrite Hs', (strip_fenced _ Hs'), He'. reflexivity.
Qed.

Lemma scan_open_lines (body : list string) (prev acc : string) :
  gathering acc ->
  Forall (fun line => open_line line = true) body ->
  scan_lines body (prev, acc) = (prev, acc +:+ with_line_ends body)
  /\ gathering (acc +:+ with_line_ends body).
Proof.
  intros Hg Hall. revert acc Hg.
  induction Hall as [|line body Hl _ IH]; intros acc Hg.
  - cbn [with_line_ends]. rewrite append_empty_r. split; [reflexivity|exact Hg].
  - destruct (scan_open_line line prev acc Hg Hl) as (Hscan & Hg').
    destruct (IH _ Hg') as (Hrest & Hg'').
    cbn [with_line_ends].
    replace (acc +:+ line +:+ nl +:+ with_line_ends body)
      with ((acc +:+ line +:+ nl) +:+ with_line_ends body)
      by (rewrite !append_assoc; reflexivity).
    split; [|exact Hg''].
    unfold scan_lines in *. cbn [fold_left]. rewrite Hscan. exact Hrest.
Qed.

(** The fence that closes the block. *)
Lemma scan_closing_fence (prev acc : string) :
  gathering acc ->
  scan_line fence (prev, acc) = (acc +:+ fence +:+ nl, EmptyString).
Proof.
  intros (Hs & _ & _). unfold scan_line.
  change (startswith fence fence) with true. cbn [orb].
  assert (Hs' : startswith (acc +:+ fence +:+ nl) fence = true)
    by (apply startswith_app_l; exact Hs).
  rewrite Hs', (strip_fenced _ Hs').
  rewrite rstrip_app_nonblank by reflexivity.
  change (rstrip (fence +:+ nl)) with fence.
  rewrite endswith_app. reflexivity.
Qed.

(** A block with a tag, from its first line to the closing fence. *)
Lemma scan_tagged_block (header prev : string) (body : list string) :
  startswith header fence = true ->
  open_line header = true ->
  Forall (fun line => open_line line = true) body ->
  scan_lines (header :: body ++ [fence]) (prev, EmptyString)
  = (with_line_ends (header :: body ++ [fence]), EmptyString).
Proof.
  intros Hs Ho Hall.
  destruct (scan_header header prev Hs Ho) as (Hh & Hg).
  destruct (scan_open_lines body prev _ Hg Hall) as (Hb & Hg').
  unfold scan_lines in *. cbn [fold_left]. rewrite Hh.
  rewrite fold_left_app, Hb. cbn [fold_left].
  rewrite (scan_closing_fence _ _ Hg').
  cbn [with_line_ends]. rewrite with_line_ends_app. cbn [with_line_ends].
  rewrite !append_assoc, append_empty_r. reflexivity.
Qed.

(** A block opened by a bare fence: both fences are blocks of their own,
    and the lines between them are not gathered. *)
Lemma scan_bare_block (prev : string) (body : list string) :
  Forall (fun line => startswith line fence = false) body ->
  scan_lines (fence :: body ++ [fence]) (prev, EmptyString)
  = (fence +:+ nl, EmptyString).
Proof.
  intros Hall. unfold scan_lines. cbn [fold_left].
  rewrite scan_bare_fence, fold_left_app.
  fold (scan_lines body (fence +:+ nl, EmptyString)).
  rewrite (scan_outside _ _ Hall). reflexivity.
Qed.

End ScanFacts.

(** ** The lines of a text *)

Section LineFacts.

Lemma contains_char_rev_app (c : ascii) (a b : string) :
  contains_char c (String.rev_app a b) = contains_char c a || contains_char c b.
Proof.
  revert b. induction a as [|x a IH]; intros b; [reflexivity|].
  cbn [String.rev_app contains_char]. rewrite IH. cbn [contains_char].
  destruct (Ascii.eqb x c), (contains_char c a), (contains_char c b); reflexivity.
Qed.

Lemma splitlines_go_no_line_end (n : nat) (s cur : string) :
  String.length s <= n ->
  contains_char LF cur = false ->
  Forall (fun line => contains_char LF line = false) (splitlines_go false cur s).
Proof.
  revert s cur. induction n as [|n IH]; intros s cur Hn Hcur.
  - destruct s; [|cbn in Hn; lia]. cbn [splitlines_go].
    destruct (isempty cur); constructor; [|constructor].
    unfold String.rev. rewrite contains_char_rev_app, Hcur. reflexivity.
  - assert (Hclose : contains_char LF (String.rev_app cur EmptyString) = false)
      by (rewrite contains_char_rev_app, Hcur; reflexivity).
    destruct s as [|c r]; cbn [splitlines_go].
    { destruct (isempty cur); constructor; [exact Hclose|constructor]. }
    cbn [String.length] in Hn.
    destruct (Ascii.eqb c CR).
    + destruct r as [|d r']; [constructor; [exact Hclose|constructor]|].
      cbn [String.length] in Hn.
      destruct (Ascii.eqb d LF); constructor; try exact Hclose.
      * apply IH; [lia|reflexivity].
      * apply IH; [cbn [String.length]; lia|reflexivity].
    + destruct (islinebreak c) eqn:Hc.
      * constructor; [exact Hclose|]. apply IH; [lia|reflexivity].
      * apply IH; [lia|]. cbn [contains_char]. rewrite Hcur.
        destruct (Ascii.eqb_spec c LF) as [->|]; [discriminate Hc|reflexivity].
Qed.

(** No line of [s.splitlines()] has a line end in it. *)
Lemma splitlines_no_line_end (s : string) :
  Forall (fun line => contains_char LF line = false) (splitlines s).
Proof.
  apply (splitlines_go_no_line_end (String.length s)); [lia|reflexivity].
Qed.




End LineFacts.

(** ** The first statement that fails *)

Section FirstFailure.
Context {H : Host}.


End FirstFailure.


(** The transcript of that run: the third statement does not appear. *)
Example python_first_failure_transcript :
  yielded (_execute_python (H := MiniPy.host)
             ("a = 1" +:+ nl +:+ "b" +:+ nl +:+ "a") false (MiniPy.fresh []))
  = [system (">>> a = 1" +:+ nl +:+ ">>> b" +:+ nl
             +:+ "NameError: name 'b' is not defined" +:+ nl
             +:+ "Error during execution, aborting.")].
Proof. vm_compute. reflexivity. Qed.


(** An entry is not always one line: the text of an exception can have
    line ends of its own. *)
Example error_entry_of_two_lines :
  splitlines (error_line (std_exn "AssertionError" []
                            ("first" +:+ nl +:+ "second")))
  = ["AssertionError: first"; "second"].
Proof. vm_compute. reflexivity. Qed.

(** ** What a save directive writes *)

Section SavedContent.
Context {H : Host}.

Lemma save_tagged_block
    (text : string) (ask : bool) (header line f c : string)
    (body rest : list string) (w : World (PyState H)) :
  splitlines text = header :: body ++ [fence; line] ->
  startswith header fence = true ->
  open_line header = true ->
  Forall (fun l => open_line l = true /\ plain_line l = true) body ->
  save_target line = Some f ->
  open_error H f (files w) = None ->
  stdin w = c :: rest ->
  agrees c = true ->
  let r := _execute_save text ask w in
  yielded r = [saved_to f] /\ outcome r = Returned tt
  /\ files (after r) = <[f := join nl body]> (files w)
  /\ stdin (after r) = rest.
Proof.
  intros Hlines Hs Ho Hbody Ht Hf Hin Hc r. subst r. unfold _execute_save.
  pose proof (splitlines_no_line_end text) as Hnl. rewrite Hlines in Hnl.
  rewrite Hlines.
  replace (header :: body ++ [fence; line])
    with ((header :: body ++ [fence]) ++ [line]) in *
    by (cbn [app]; rewrite <- app_assoc; reflexivity).
  apply Forall_app in Hnl as [Hnl _].
  assert (Hopen : Forall (fun l => open_line l = true) body)
    by (eapply Forall_impl; [exact Hbody|]; intros l [Hl _]; exact Hl).
  assert (Hplain : Forall (fun l => plain_line l = true)
                     (header :: body ++ [fence])).
  { constructor; [apply plain_fenced; exact Hs|].
    apply Forall_app. split.
    - eapply Forall_impl; [exact Hbody|]. intros l [_ Hl]. exact Hl.
    - constructor; [reflexivity|constructor]. }
  destruct (save_lines_then_directive _ line EmptyString EmptyString f c rest w
              Hplain Ht Hf Hin Hc) as (Hy & Hout & Hfiles & Hrest).
  rewrite (scan_tagged_block header EmptyString body Hs Ho Hopen) in Hfiles.
  cbn [fst] in Hfiles. rewrite (block_content_lines _ _ _ Hnl) in Hfiles.
  repeat split; assumption.
Qed.

(** A block with a tag is saved as the lines between its first line and
    the closing fence, joined by line ends: when the text is the opening
    line (a fence and more), lines that neither end in a fence nor are
    directives, a fence, and a save directive that is agreed to and names
    a file that can be opened for writing, that file holds exactly those
    lines. *)
Theorem save_writes_block_body
    (text : string) (ask : bool) (header line f c : string)
    (body rest : list string) (w : World (PyState H)) :
  splitlines text = header :: body ++ [fence; line] ->
  startswith header fence = true ->
  open_line header = true ->
  Forall (fun l => open_line l = true /\ plain_line l = true) body ->
  save_target line = Some f ->
  open_error H f (files w) = None ->
  stdin w = c :: rest ->
  agrees c = true ->
  let r := _execute_save text ask w in
  yielded r = [saved_to f] /\ outcome r = Returned tt
  /\ files (after r) = <[f := join nl body]> (files w).
Proof.
  intros Hlines Hs Ho Hbody Ht Hf Hin Hc r.
  destruct (save_tagged_block text ask header line f c body rest w
              Hlines Hs Ho Hbody Ht Hf Hin Hc) as (Hy & Hout & Hfiles & _).
  repeat split; assumption.
Qed.

(** Saving and loading go together: after a block with a tag has been
    saved to a file that could be opened for writing, loading that file,
    when agreed to, gives back the lines of the block. *)
Theorem save_then_load
    (text : string) (ask : bool) (header line f c c' : string)
    (body rest : list string) (w : World (PyState H)) :
  splitlines text = header :: body ++ [fence; line] ->
  startswith header fence = true ->
  open_line header = true ->
  Forall (fun l => open_line l = true /\ plain_line l = true) body ->
  save_target line = Some f ->
  open_error H f (files w) = None ->
  stdin w = c :: c' :: rest ->
  agrees c = true ->
  agrees c' = true ->
  let saved := _execute_save text ask w in
  let r := _execute_load f (after saved) in
  yielded r = [loaded f (join nl body)] /\ outcome r = Returned tt.
Proof.
  intros Hlines Hs Ho Hbody Ht Hf Hin Hc Hc' saved r.
  destruct (save_tagged_block text ask header line f c body (c' :: rest) w
              Hlines Hs Ho Hbody Ht Hf Hin Hc) as (_ & _ & Hfiles & Hrest).
  fold saved in Hfiles, Hrest.
  assert (Hfound : files (after saved) !! f = Some (join nl body))
    by (rewrite Hfiles; apply lookup_insert_eq).
  destruct (load_found f (join nl body) c' rest (after saved) Hfound Hrest Hc')
    as (Hy & Hout & _).
  split; assumption.
Qed.

(** A block opened by a fence without a tag is saved as nothing: when no
    line between its two fences begins with a fence or is a directive,
    each of the two fences is taken as a block of its own, and a directive
    that is agreed to and names a file that can be opened for writing
    writes an empty file, whatever those lines are. *)
Theorem save_bare_fence_writes_nothing
    (text : string) (ask : bool) (line f c : string)
    (body rest : list string) (w : World (PyState H)) :
  splitlines text = fence :: body ++ [fence; line] ->
  Forall (fun l => startswith l fence = false /\ plain_line l = true) body ->
  save_target line = Some f ->
  open_error H f (files w) = None ->
  stdin w = c :: rest ->
  agrees c = true ->
  let r := _execute_save text ask w in
  yielded r = [saved_to f] /\ outcome r = Returned tt
  /\ files (after r) = <[f := EmptyString]> (files w).
Proof.
  intros Hlines Hbody Ht Hf Hin Hc r. subst r. unfold _execute_save.
  rewrite Hlines.
  replace (fence :: body ++ [fence; line])
    with ((fence :: body ++ [fence]) ++ [line])
    by (cbn [app]; rewrite <- app_assoc; reflexivity).
  assert (Hout : Forall (fun l => startswith l fence = false) body)
    by (eapply Forall_impl; [exact Hbody|]; intros l [Hl _]; exact Hl).
  assert (Hplain : Forall (fun l => plain_line l = true)
                     (fence :: body ++ [fence])).
  { constructor; [reflexivity|]. apply Forall_app. split.
    - eapply Forall_impl; [exact Hbody|]. intros l [_ Hl]. exact Hl.
    - constructor; [reflexivity|constructor]. }
  destruct (save_lines_then_directive _ line EmptyString EmptyString f c rest w
              Hplain Ht Hf Hin Hc) as (Hy & Ho & Hfiles & _).
  rewrite (scan_bare_block EmptyString body Hout) in Hfiles.
  repeat split; assumption.
Qed.

(** A save directive that comes before any fence, is agreed to and names
    a file that can be opened for writing, writes an empty file. *)
Theorem save_without_block_writes_nothing
    (text : string) (ask : bool) (line f c : string)
    (before rest : list string) (w : World (PyState H)) :
  splitlines text = before ++ [line] ->
  Forall (fun l => startswith l fence = false /\ plain_line l = true) before ->
  save_target line = Some f ->
  open_error H f (files w) = None ->
  stdin w = c :: rest ->
  agrees c = true ->
  let r := _execute_save text ask w in
  yielded r = [saved_to f] /\ outcome r = Returned tt
  /\ files (after r) = <[f := EmptyString]> (files w).
Proof.
  intros Hlines Hbefore Ht Hf Hin Hc r. subst r. unfold _execute_save.
  rewrite Hlines.
  assert (Hout : Forall (fun l => startswith l fence = false) before)
    by (eapply Forall_impl; [exact Hbefore|]; intros l [Hl _]; exact Hl).
  assert (Hplain : Forall (fun l => plain_line l = true) before)
    by (eapply Forall_impl; [exact Hbefore|]; intros l [_ Hl]; exact Hl).
  destruct (save_lines_then_directive _ line EmptyString EmptyString f c rest w
              Hplain Ht Hf Hin Hc) as (Hy & Ho & Hfiles & _).
  rewrite (scan_outside _ _ Hout) in Hfiles.
  repeat split; assumption.
Qed.

(** When the file of a save directive cannot be opened for writing and
    the answer agrees, the handler stops there with the error of [open]:
    there is no reply for the directive, no file changes, and the lines
    after the directive are not looked at. *)
Theorem save_unopenable_file_raises
    (text : string) (ask : bool) (line f c : string) (e : Exn)
    (before more rest : list string) (w : World (PyState H)) :
  splitlines text = before ++ line :: more ->
  Forall (fun l => plain_line l = true) before ->
  save_target line = Some f ->
  open_error H f (files w) = Some e ->
  stdin w = c :: rest ->
  agrees c = true ->
  let r := _execute_save text ask w in
  yielded r = [] /\ outcome r = Raised e /\ files (after r) = files w.
Proof.
  intros Hlines Hplain Ht Hf Hin Hc r. subst r. unfold _execute_save.
  rewrite Hlines. rewrite (save_lines_plain_lines _ _ _ _ _ Hplain).
  assert (Hd : startswith (strip line) "// save:" = true).
  { unfold save_target in Ht.
    destruct (startswith (strip line) "// save:"); [reflexivity|discriminate]. }
  destruct (save_directive_target line Hd) as (part & Hpart & Ht').
  rewrite Ht in Ht'. injection Ht' as ->.
  rewrite save_lines_directive by (unfold plain_line; rewrite Hd; reflexivity).
  destruct (save_directive_refused line
              (fst (scan_lines before (EmptyString, EmptyString)))
              part c rest e w Hpart Hf Hin Hc) as (w' & Hrun & Hfiles).
  rewrite (bind_raised _ _ w _ w' e Hrun).
  repeat split; first [reflexivity | exact Hfiles].
Qed.

End SavedContent.

Lemma save_writes_block_body_witness :
  let text := fence +:+ "python" +:+ nl +:+ "x = 1" +:+ nl +:+ "y = 2" +:+ nl
              +:+ fence +:+ nl +:+ "// save: a.py" in
  let w := MiniPy.fresh ["y"] in
  let r := _execute_save (H := MiniPy.host) text true w in
  yielded r = [saved_to "a.py"] /\ outcome r = Returned tt
  /\ files (after r) = <["a.py" := join nl ["x = 1"; "y = 2"]]> (files w).
Proof.
  apply (save_writes_block_body (H := MiniPy.host)
           (fence +:+ "python" +:+ nl +:+ "x = 1" +:+ nl +:+ "y = 2" +:+ nl
            +:+ fence +:+ nl +:+ "// save: a.py")
           true (fence +:+ "python") "// save: a.py" "a.py" "y"
           ["x = 1"; "y = 2"] [] (MiniPy.fresh ["y"]));
    try reflexivity.
  repeat constructor.
Defined.

Lemma save_unopenable_file_raises_witness :
  let text := fence +:+ "python" +:+ nl +:+ "x = 1" +:+ nl +:+ fence +:+ nl
              +:+ "// save: nodir/a.py" +:+ nl +:+ "// save: b.py" in
  let w := MiniPy.fresh ["y"; "y"] in
  let r := _execute_save (H := MiniPy.host) text true w in
  yielded r = [] /\ outcome r = Raised (no_such_file "nodir/a.py")
  /\ files (after r) = files w.
Proof.
  apply (save_unopenable_file_raises (H := MiniPy.host)
           (fence +:+ "python" +:+ nl +:+ "x = 1" +:+ nl +:+ fence +:+ nl
            +:+ "// save: nodir/a.py" +:+ nl +:+ "// save: b.py")
           true "// save: nodir/a.py" "nodir/a.py" "y"
           (no_such_file "nodir/a.py")
           [fence +:+ "python"; "x = 1"; fence] ["// save: b.py"] ["y"]
           (MiniPy.fresh ["y"; "y"]));
    try reflexivity.
  repeat constructor.
Defined.

Lemma save_then_load_witness :
  let text := fence +:+ "python" +:+ nl +:+ "x = 1" +:+ nl +:+ "y = 2" +:+ nl
              +:+ fence +:+ nl +:+ "// save: a.py" in
  let saved := _execute_save (H := MiniPy.host) text true (MiniPy.fresh ["y"; "yes"]) in
  let r := _execute_load (H := MiniPy.host) "a.py" (after saved) in
  yielded r = [loaded "a.py" (join nl ["x = 1"; "y = 2"])]
  /\ outcome r = Returned tt.
Proof.
  apply (save_then_load (H := MiniPy.host)
           (fence +:+ "python" +:+ nl +:+ "x = 1" +:+ nl +:+ "y = 2" +:+ nl
            +:+ fence +:+ nl +:+ "// save: a.py")
           true (fence +:+ "python") "// save: a.py" "a.py" "y" "yes"
           ["x = 1"; "y = 2"] [] (MiniPy.fresh ["y"; "yes"]));
    try reflexivity.
  repeat constructor.
Defined.

Lemma save_bare_fence_writes_nothing_witness :
  let text := fence +:+ nl +:+ "x = 1" +:+ nl +:+ fence +:+ nl
              +:+ "// save: a.py" in
  let w := MiniPy.fresh ["y"] in
  let r := _execute_save (H := MiniPy.host) text true w in
  yielded r = [saved_to "a.py"] /\ outcome r = Returned tt
  /\ files (after r) = <["a.py" := EmptyString]> (files w).
Proof.
  apply (save_bare_fence_writes_nothing (H := MiniPy.host)
           (fence +:+ nl +:+ "x = 1" +:+ nl +:+ fence +:+ nl +:+ "// save: a.py")
           true "// save: a.py" "a.py" "y" ["x = 1"] [] (MiniPy.fresh ["y"]));
    try reflexivity.
  repeat constructor.
Defined.

Lemma save_without_block_writes_nothing_witness :
  let text := "some words" +:+ nl +:+ "// save: a.py" in
  let w := MiniPy.fresh [""] in
  let r := _execute_save (H := MiniPy.host) text true w in
  yielded r = [saved_to "a.py"] /\ outcome r = Returned tt
  /\ files (after r) = <["a.py" := EmptyString]> (files w).
Proof.
  apply (save_without_block_writes_nothing (H := MiniPy.host)
           ("some words" +:+ nl +:+ "// save: a.py")
           true "// save: a.py" "a.py" "" ["some words"] [] (MiniPy.fresh [""]));
    try reflexivity.
  repeat constructor.
Defined.

(** ** The file name of a save directive *)

Section SaveTargetFacts.

Lemma split_first_part (c : ascii) (part rest : string) :
  contains_char c part = false ->
  split c (part +:+ String c rest) = part :: split c rest.
Proof.
  induction part as [|a part IH]; intros Hp.
  - change (EmptyString +:+ String c rest) with (String c rest).
    cbn [split]. rewrite Ascii.eqb_refl. reflexivity.
  - change (String a part +:+ String c rest)
      with (String a (part +:+ String c rest)).
    cbn [contains_char] in Hp. apply orb_false_iff in Hp as [Ha Hp].
    cbn [split]. rewrite Ha, (IH Hp). reflexivity.
Qed.

Lemma split_no_separator (c : ascii) (s : string) :
  contains_char c s = false -> split c s = [s].
Proof.
  induction s as [|a s IH]; intros Hs; [reflexivity|].
  cbn [contains_char] in Hs. apply orb_false_iff in Hs as [Ha Hs].
  cbn [split]. rewrite Ha, (IH Hs). reflexivity.
Qed.

Lemma directive_recognized (x : string) :
  startswith (strip ("// save:" +:+ x)) "// save:" = true.
Proof.
  change (strip ("// save:" +:+ x)) with (rstrip ("// save:" +:+ x)).
  destruct (isempty (rstrip x)) eqn:Hx.
  - rewrite (rstrip_app_blank _ _ Hx). reflexivity.
  - rewrite (rstrip_app_nonblank _ _ Hx). apply startswith_app.
Qed.

(** The file name of a save directive is the text between the first colon
    of the line and the next one, stripped: what follows a second colon,
    as in a path with a drive letter, is left out of the name. *)
Theorem save_target_stops_at_colon (name : string) :
  contains_char ":" name = false ->
  save_target ("// save:" +:+ name) = Some (strip name)
  /\ forall more, save_target ("// save:" +:+ name +:+ String ":" more)
                  = Some (strip name).
Proof.
  intros Hn. split; [|intros more]; unfold save_target;
    rewrite directive_recognized.
  - change ("// save:" +:+ name) with ("// save" +:+ String ":" name).
    rewrite (split_first_part ":" "// save" name eq_refl).
    rewrite (split_no_separator _ _ Hn). reflexivity.
  - change ("// save:" +:+ name +:+ String ":" more)
      with ("// save" +:+ String ":" (name +:+ String ":" more)).
    rewrite (split_first_part ":" "// save" _ eq_refl).
    rewrite (split_first_part ":" name more Hn). reflexivity.
Qed.

End SaveTargetFacts.

Lemma save_target_stops_at_colon_witness :
  save_target ("// save:" +:+ " C") = Some "C"
  /\ forall more, save_target ("// save:" +:+ " C" +:+ String ":" more) = Some "C".
Proof.
  apply (save_target_stops_at_colon " C"). reflexivity.
Defined.

(** ** Fenced blocks handed to an executor *)

Section CodeblockFacts.
Context {H : Host}.

(** The executors do not see white space around what they are given. *)
Lemma execute_python_strips (code code' : string) (ask : bool) :
  strip code = strip code' ->
  _execute_python (H := H) code ask = _execute_python code' ask.
Proof. intros Hs. unfold _execute_python. rewrite Hs. reflexivity. Qed.

Lemma execute_shell_strips (cmd cmd' : string) (ask : bool) :
  strip cmd = strip cmd' ->
  _execute_shell (H := H) cmd ask = _execute_shell cmd' ask.
Proof. intros Hs. unfold _execute_shell. rewrite Hs. reflexivity. Qed.

(** A block whose first line is one of the known tags goes to the
    executor of that tag, with confirmation, as the text after the first
    line; nothing is logged. *)
Theorem codeblock_dispatch (body : string) (w : World (PyState H)) :
  _execute_codeblock ("python" +:+ nl +:+ body) w
  = bind (_execute_python body true) (fun _ => ret None) w
  /\ _execute_codeblock ("terminal" +:+ nl +:+ body) w
     = bind (_execute_shell body true) (fun _ => ret None) w
  /\ _execute_codeblock ("bash" +:+ nl +:+ body) w
     = bind (_execute_shell body true) (fun _ => ret None) w
  /\ _execute_codeblock ("sh" +:+ nl +:+ body) w
     = bind (_execute_shell body true) (fun _ => ret None) w.
Proof.
  assert (Hpy : _execute_python (H := H) (nl +:+ body) true
                = _execute_python body true)
    by (apply execute_python_strips; reflexivity).
  assert (Hsh : _execute_shell (H := H) (nl +:+ body) true
                = _execute_shell body true)
    by (apply execute_shell_strips; reflexivity).
  rewrite <- Hpy, <- Hsh.
  repeat split; unfold _execute_codeblock;
    (erewrite bind_returned; [|reflexivity|reflexivity]);
    unfold after_yields; cbn [app]; rewrite run_eta; reflexivity.
Qed.

(** A block with any other first line runs nothing: no reply, the world
    as it was, and one warning that names the tag. *)
Theorem codeblock_unknown_tag
    (codeblock first : string) (w : World (PyState H)) :
  splitlines codeblock !! 0%nat = Some first ->
  str_in (strip first) ["python"; "terminal"; "bash"; "sh"] = false ->
  _execute_codeblock codeblock w
  = {| yielded := []; after := w;
       outcome := Returned (Some ("Unknown codeblock type " +:+ strip first)) |}.
Proof.
  intros Hfirst Htag. unfold _execute_codeblock. rewrite Hfirst.
  erewrite bind_returned; [|reflexivity|].
  2:{ cbv beta. cbv zeta.
      assert (Hp : str_in (strip first) ["python"] = false).
      { unfold str_in in *. cbn [existsb] in *.
        apply orb_false_iff in Htag as [Hp _]. rewrite Hp. reflexivity. }
      assert (Hs : str_in (strip first) ["terminal"; "bash"; "sh"] = false).
      { unfold str_in in *. cbn [existsb] in *.
        apply orb_false_iff in Htag as [_ Hs]. exact Hs. }
      rewrite Hp, Hs. reflexivity. }
  reflexivity.
Qed.

Lemma splitlines_go_some (keep : bool) (s cur : string) :
  isempty cur && isempty s = false -> splitlines_go keep cur s <> [].
Proof.
  revert cur. induction s as [|c r IH]; intros cur Hne.
  - rewrite andb_true_r in Hne. cbn [splitlines_go]. rewrite Hne. discriminate.
  - cbn [splitlines_go]. destruct (Ascii.eqb c CR).
    + destruct r as [|d r']; [discriminate|].
      destruct (Ascii.eqb d LF); discriminate.
    + destruct (islinebreak c); [discriminate|]. apply IH. reflexivity.
Qed.

(** The empty block, and no other, has no first line: for it the executor
    raises [IndexError] before anything is run. *)
Theorem codeblock_empty (w : World (PyState H)) :
  _execute_codeblock EmptyString w
  = {| yielded := []; after := w;
       outcome := Raised (std_exn "IndexError" ["LookupError"]
                            "list index out of range") |}
  /\ forall codeblock : string,
       splitlines codeblock !! 0%nat = None <-> codeblock = EmptyString.
Proof.
  split; [reflexivity|]. intros codeblock. split.
  - intros Hnone. destruct codeblock as [|c r]; [reflexivity|].
    pose proof (splitlines_go_some false (String c r) EmptyString eq_refl) as Hsome.
    unfold splitlines in Hnone.
    destruct (splitlines_go false EmptyString (String c r)); [contradiction|discriminate].
  - intros ->. reflexivity.
Qed.

(** The tag is cut off by its stripped length from the front of the
    block: white space before the tag shifts the cut, and the end of the
    tag is run as code. *)
Theorem codeblock_indented_tag (body : string) (w : World (PyState H)) :
  _execute_codeblock (" python" +:+ nl +:+ body) w
  = bind (_execute_python ("n" +:+ nl +:+ body) true) (fun _ => ret None) w.
Proof.
  unfold _execute_codeblock.
  erewrite bind_returned; [|reflexivity|reflexivity].
  unfold after_yields. cbn [app]. rewrite run_eta. reflexivity.
Qed.

End CodeblockFacts.

Lemma codeblock_unknown_tag_witness :
  _execute_codeblock (H := MiniPy.host) ("ruby" +:+ nl +:+ "puts 1") (MiniPy.fresh [])
  = {| yielded := []; after := MiniPy.fresh [];
       outcome := Returned (Some ("Unknown codeblock type " +:+ strip "ruby")) |}.
Proof.
  apply (codeblock_unknown_tag (H := MiniPy.host) ("ruby" +:+ nl +:+ "puts 1")
           "ruby" (MiniPy.fresh [])); reflexivity.
Defined.

(** ** More on the shell executor and the dispatcher *)

Section ShellEdges.
Context {H : Host}.

Lemma startswith_rstrip (s p : string) :
  startswith (rstrip s) p = true -> startswith s p = true.
Proof.
  revert s. induction p as [|b p IH]; intros s; [reflexivity|].
  destruct s as [|a s]; [discriminate|].
  cbn [rstrip]. destruct (isspace a && isempty (rstrip s)); [discriminate|].
  cbn [startswith]. destruct (Ascii.eqb b a); [|discriminate].
  cbn [andb]. apply IH.
Qed.

Lemma execute_shell_command (cmd cmd' : string) (ask : bool) :
  shell_command cmd = shell_command cmd' ->
  _execute_shell (H := H) cmd ask = _execute_shell cmd' ask.
Proof.
  intros Hc. unfold _execute_shell. cbv zeta.
  change (if startswith (strip cmd) "$ "
          then slice_from (String.length "$ ") (strip cmd) else strip cmd)
    with (shell_command cmd).
  change (if startswith (strip cmd') "$ "
          then slice_from (String.length "$ ") (strip cmd') else strip cmd')
    with (shell_command cmd').
  rewrite Hc. reflexivity.
Qed.

(** The prompt marker is dropped: for a command without white space in
    front that does not itself begin with the marker, [$ cmd] is executed
    exactly as [cmd] is. *)
Theorem shell_marker_dropped (cmd : string) (ask : bool) :
  lstrip cmd = cmd ->
  isempty (rstrip cmd) = false ->
  startswith cmd "$ " = false ->
  _execute_shell (H := H) ("$ " +:+ cmd) ask = _execute_shell cmd ask.
Proof.
  intros Hl Hr Hs. apply execute_shell_command. unfold shell_command.
  change (strip ("$ " +:+ cmd)) with (rstrip ("$ " +:+ cmd)).
  rewrite (rstrip_app_nonblank _ _ Hr), startswith_app.
  change (slice_from 2 ("$ " +:+ rstrip cmd)) with (rstrip cmd).
  unfold strip. rewrite Hl.
  destruct (startswith (rstrip cmd) "$ ") eqn:Hs'; [|reflexivity].
  apply startswith_rstrip in Hs'. rewrite Hs' in Hs. discriminate Hs.
Qed.

(** Only one marker is dropped: the command run for [$ $ cmd] is [$ cmd]. *)
Theorem shell_second_marker_kept (cmd : string) :
  isempty (rstrip cmd) = false ->
  shell_command ("$ $ " +:+ cmd) = "$ " +:+ rstrip cmd.
Proof.
  intros Hr. unfold shell_command.
  change (strip ("$ $ " +:+ cmd)) with (rstrip ("$ $ " +:+ cmd)).
  rewrite (rstrip_app_nonblank _ _ Hr). reflexivity.
Qed.

(** With confirmation required and an answer that agrees, the command is
    run and reported as it is without confirmation, in the world the
    prompt left. *)
Theorem shell_agreed_runs
    (cmd c : string) (rest : list string) (w : World (PyState H)) :
  stdin w = c :: rest ->
  agrees c = true ->
  exists w1, _execute_shell cmd true w = _execute_shell cmd false w1
             /\ stdin w1 = rest /\ files w1 = files w /\ py w1 = py w.
Proof. exact (shell_confirmed cmd c rest w). Qed.

(** With confirmation required and an answer that declines, nothing is
    run and, unlike the Python executor, no reply is yielded at all. *)
Theorem shell_declined_is_silent
    (cmd c : string) (rest : list string) (w : World (PyState H)) :
  stdin w = c :: rest ->
  agrees c = false ->
  exists w', _execute_shell cmd true w
             = {| yielded := []; after := w'; outcome := Returned tt |}
             /\ stdin w' = rest /\ files w' = files w /\ py w' = py w.
Proof.
  intros Hin Hc. unfold agrees in Hc. eexists. split.
  - unfold _execute_shell, _print_preview. cbv zeta.
    etransitivity.
    { eapply bind_returned; [run_returned|].
      cbv beta. unfold answered. rewrite Hc. reflexivity. }
    reflexivity.
  - unfold set_stdin. cbn [stdin files py].
    rewrite !files_write_stdout, !py_write_stdout. repeat split; reflexivity.
Qed.

(** A line that begins with [terminal: ] goes to the shell executor and
    one that begins with [python: ] to the Python executor, both with
    confirmation and with the rest of the line. *)
Theorem linecmd_dispatch (rest_of_line : string) :
  _execute_linecmd (H := H) ("terminal: " +:+ rest_of_line)
  = _execute_shell rest_of_line true
  /\ _execute_linecmd (H := H) ("python: " +:+ rest_of_line)
     = _execute_python rest_of_line true.
Proof.
  split; unfold _execute_linecmd.
  - rewrite startswith_app. reflexivity.
  - change (startswith ("python: " +:+ rest_of_line) "terminal: ") with false.
    cbv iota. rewrite startswith_app. reflexivity.
Qed.

(** The two prefixes are looked for at the very start of the line: with a
    blank before them the line is no command, and the dispatcher does
    nothing. *)
Theorem linecmd_indented_is_ignored
    (rest_of_line : string) (w : World (PyState H)) :
  _execute_linecmd (" terminal: " +:+ rest_of_line) w
  = {| yielded := []; after := w; outcome := Returned tt |}
  /\ _execute_linecmd (" python: " +:+ rest_of_line) w
     = {| yielded := []; after := w; outcome := Returned tt |}.
Proof.
  split; unfold _execute_linecmd.
  - change (startswith (" terminal: " +:+ rest_of_line) "terminal: ") with false.
    change (startswith (" terminal: " +:+ rest_of_line) "python: ") with false.
    cbv iota.
    change (strip (" terminal: " +:+ rest_of_line))
      with (rstrip ("terminal: " +:+ rest_of_line)).
    destruct (startswith (rstrip ("terminal: " +:+ rest_of_line)) "// load: ")
      eqn:Hs; [|reflexivity].
    apply startswith_rstrip in Hs. discriminate Hs.
  - change (startswith (" python: " +:+ rest_of_line) "terminal: ") with false.
    change (startswith (" python: " +:+ rest_of_line) "python: ") with false.
    cbv iota.
    change (strip (" python: " +:+ rest_of_line))
      with (rstrip ("python: " +:+ rest_of_line)).
    destruct (startswith (rstrip ("python: " +:+ rest_of_line)) "// load: ")
      eqn:Hs; [|reflexivity].
    apply startswith_rstrip in Hs. discriminate Hs.
Qed.

End ShellEdges.

Lemma shell_marker_dropped_witness :
  _execute_shell (H := MiniPy.host) ("$ " +:+ "echo hi") true
  = _execute_shell (H := MiniPy.host) "echo hi" true.
Proof.
  apply (shell_marker_dropped (H := MiniPy.host) "echo hi" true); reflexivity.
Defined.

Lemma shell_second_marker_kept_witness :
  shell_command ("$ $ " +:+ "echo hi") = "$ " +:+ rstrip "echo hi".
Proof. apply (shell_second_marker_kept "echo hi"). reflexivity. Defined.

Lemma shell_agreed_runs_witness :
  exists w1,
    _execute_shell (H := MiniPy.host) "echo hi" true (MiniPy.fresh [""])
    = _execute_shell (H := MiniPy.host) "echo hi" false w1
    /\ stdin w1 = [] /\ files w1 = files (MiniPy.fresh [""])
    /\ py w1 = py (MiniPy.fresh [""]).
Proof.
  apply (shell_agreed_runs (H := MiniPy.host) "echo hi" "" []
           (MiniPy.fresh [""])); reflexivity.
Defined.

Lemma shell_declined_is_silent_witness :
  exists w',
    _execute_shell (H := MiniPy.host) "echo hi" true (MiniPy.fresh ["n"])
    = {| yielded := []; after := w'; outcome := Returned tt |}
    /\ stdin w' = [] /\ files w' = files (MiniPy.fresh ["n"])
    /\ py w' = py (MiniPy.fresh ["n"]).
Proof.
  apply (shell_declined_is_silent (H := MiniPy.host) "echo hi" "n" []
           (MiniPy.fresh ["n"])); reflexivity.
Defined.

(** ** The text that is summarized *)

Section WordFacts.

Lemma words_cons_word (c : ascii) (r : string) :
  isspace c = false ->
  exists w ws, words (String c r) = w :: ws.
Proof.
  intros Hc. cbn [words]. rewrite Hc.
  destruct r as [|d r]; [eexists _, _; reflexivity|].
  destruct (isspace d); [eexists _, _; reflexivity|].
  destruct (words (String d r)); eexists _, _; reflexivity.
Qed.

(** White space between two texts keeps their words apart. *)
Lemma words_app_space (x y : string) (sp : ascii) :
  isspace sp = true ->
  words (x +:+ String sp y) = words x ++ words y.
Proof.
  intros Hsp. induction x as [|c x IH].
  - change (EmptyString +:+ String sp y) with (String sp y).
    cbn [words]. rewrite Hsp. reflexivity.
  - change (String c x +:+ String sp y) with (String c (x +:+ String sp y)).
    cbn [words]. destruct (isspace c) eqn:Hc; [exact IH|].
    destruct x as [|d x].
    + change (EmptyString +:+ String sp y) with (String sp y) in *.
      cbv iota. rewrite Hsp, IH. reflexivity.
    + change (String d x +:+ String sp y)
        with (String d (x +:+ String sp y)) in *.
      cbv iota. destruct (isspace d) eqn:Hd.
      * rewrite IH. reflexivity.
      * rewrite IH.
        destruct (words_cons_word d x Hd) as (w & ws & ->). reflexivity.
Qed.

Lemma words_of_word (w : string) :
  is_word w = true -> words w = [w].
Proof.
  unfold is_word. induction w as [|c r IH]; [discriminate|].
  cbn [isempty negb andb no_space]. intros Hw.
  apply andb_true_iff in Hw as [Hc Hr]. apply negb_true_iff in Hc.
  cbn [words]. rewrite Hc.
  destruct r as [|d r]; [reflexivity|].
  cbn [no_space] in Hr. pose proof Hr as Hr'.
  apply andb_true_iff in Hr as [Hd _]. apply negb_true_iff in Hd.
  rewrite Hd, (IH Hr'). reflexivity.
Qed.

(** What [split()] gives are words. *)
Lemma words_are_words (s : string) :
  Forall (fun w => is_word w = true) (words s).
Proof.
  induction s as [|c r IH]; [constructor|].
  cbn [words]. destruct (isspace c) eqn:Hc; [exact IH|].
  assert (Hone : is_word (String c EmptyString) = true)
    by (unfold is_word; cbn; rewrite Hc; reflexivity).
  destruct r as [|d r]; [constructor; [exact Hone|constructor]|].
  destruct (isspace d); [constructor; [exact Hone|exact IH]|].
  destruct (words (String d r)) as [|w ws];
    [constructor; [exact Hone|constructor]|].
  apply Forall_cons in IH as [Hw Hws]. constructor; [|exact Hws].
  unfold is_word in *. cbn [isempty negb andb no_space]. rewrite Hc.
  apply andb_true_iff in Hw as [_ Hw]. rewrite Hw. reflexivity.
Qed.

(** Words joined by blanks are split into the same words again. *)
Lemma words_join (l : list string) :
  Forall (fun w => is_word w = true) l ->
  words (join " " l) = l.
Proof.
  induction 1 as [|x l Hx Hl IH]; [reflexivity|].
  destruct l as [|y l]; [exact (words_of_word _ Hx)|].
  change (join " " (x :: y :: l)) with (x +:+ String " " (join " " (y :: l))).
  rewrite (words_app_space _ _ " " eq_refl), (words_of_word _ Hx), IH.
  reflexivity.
Qed.

End WordFacts.

Section SummarizerFacts.
Context {H : Host}.
Variable len_tokens : string -> nat.
Variable _llm_summarize : string -> Gen (PyState H) string.

(** For a content of more than 200 tokens, what [summarize] hands to the
    model is, word for word, the first 150 words of the content, the
    word [...], and its last 100 words: at most 251 words, whatever the
    length of the content, and with words twice when the content has
    fewer than 250. *)
Theorem summarize_long_content (msg : Message) (w : World (PyState H)) :
  200 < len_tokens (content msg) ->
  let ws := words (content msg) in
  exists text,
    summarize len_tokens _llm_summarize msg w
    = bind (_llm_summarize text)
        (fun summary =>
           ret (Build_Message "system"
                  ("Here is a summary of the response:" +:+ nl +:+ summary))) w
    /\ words text = take 150 ws ++ ["..."] ++ drop (length ws - 100) ws
    /\ length (words text) <= 251.
Proof.
  intros Hlong ws. exists (summarized_text len_tokens (content msg)).
  split; [reflexivity|].
  assert (Hw : words (summarized_text len_tokens (content msg))
               = take 150 ws ++ ["..."] ++ drop (length ws - 100) ws).
  { unfold summarized_text. apply Nat.ltb_lt in Hlong. rewrite Hlong.
    cbv zeta. fold ws.
    change (join " " (take 150 ws) +:+ nl +:+ "..." +:+ nl
            +:+ join " " (drop (length ws - 100) ws))
      with (join " " (take 150 ws)
            +:+ String LF ("..." +:+ String LF
                             (join " " (drop (length ws - 100) ws)))).
    rewrite (words_app_space _ _ LF eq_refl), (words_app_space _ _ LF eq_refl).
    pose proof (words_are_words (content msg)) as Hall. fold ws in Hall.
    rewrite !words_join
      by (first [apply Forall_take | apply Forall_drop]; exact Hall).
    reflexivity. }
  split; [exact Hw|].
  rewrite Hw, !length_app, length_take, length_drop. cbn [length]. lia.
Qed.

(** A content of at most 200 tokens is handed to the model as it is. *)
Theorem summarize_short_content (msg : Message) (w : World (PyState H)) :
  len_tokens (content msg) <= 200 ->
  summarize len_tokens _llm_summarize msg w
  = bind (_llm_summarize (content msg))
      (fun summary =>
         ret (Build_Message "system"
                ("Here is a summary of the response:" +:+ nl +:+ summary))) w.
Proof.
  intros Hshort. unfold summarize, summarized_text.
  replace (200 <? len_tokens (content msg))%nat with false
    by (symmetry; apply Nat.ltb_ge; exact Hshort).
  reflexivity.
Qed.

End SummarizerFacts.

Lemma summarize_long_content_witness :
  let msg := Build_Message "assistant" (join " " (replicate 101 "w")) in
  let ws := words (content msg) in
  exists text,
    summarize (H := MiniPy.host) String.length (fun text => ret text) msg
      (MiniPy.fresh [])
    = bind (ret text)
        (fun summary =>
           ret (Build_Message "system"
                  ("Here is a summary of the response:" +:+ nl +:+ summary)))
        (MiniPy.fresh [])
    /\ words text = take 150 ws ++ ["..."] ++ drop (length ws - 100) ws
    /\ length (words text) <= 251.
Proof.
  apply (summarize_long_content (H := MiniPy.host) String.length
           (fun text => ret text)
           (Build_Message "assistant" (join " " (replicate 101 "w")))
           (MiniPy.fresh [])).
  vm_compute. lia.
Defined.

Lemma summarize_short_content_witness :
  let msg := Build_Message "assistant" "a few words" in
  summarize (H := MiniPy.host) String.length (fun text => ret text) msg
    (MiniPy.fresh [])
  = bind (ret (content msg))
      (fun summary =>
         ret (Build_Message "system"
                ("Here is a summary of the response:" +:+ nl +:+ summary)))
      (MiniPy.fresh []).
Proof.
  apply (summarize_short_content (H := MiniPy.host) String.length
           (fun text => ret text) (Build_Message "assistant" "a few words")
           (MiniPy.fresh [])).
  vm_compute. lia.
Defined.

(** ** White space around the code *)

Section BlankFacts.
Context {H : Host}.

Lemma lstrip_blank (a : string) :
  isempty (rstrip a) = true -> lstrip a = EmptyString.
Proof.
  induction a as [|c r IH]; [reflexivity|]. cbn [rstrip lstrip].
  destruct (isspace c); [|discriminate].
  destruct (rstrip r); [|discriminate]. intros _. apply IH. reflexivity.
Qed.

Lemma lstrip_app_blank (a s : string) :
  isempty (rstrip a) = true -> lstrip (a +:+ s) = lstrip s.
Proof.
  induction a as [|c r IH]; [reflexivity|].
  change (String c r +:+ s) with (String c (r +:+ s)). cbn [rstrip lstrip].
  destruct (isspace c); [|discriminate].
  destruct (rstrip r); [|discriminate]. intros _. apply IH. reflexivity.
Qed.

Lemma strip_app_blank (s b : string) :
  isempty (rstrip b) = true -> strip (s +:+ b) = strip s.
Proof.
  intros Hb. unfold strip. induction s as [|c r IH].
  - change (EmptyString +:+ b) with b. rewrite (lstrip_blank _ Hb). reflexivity.
  - change (String c r +:+ b) with (String c (r +:+ b)). cbn [lstrip].
    destruct (isspace c); [exact IH|].
    change (String c (r +:+ b)) with (String c r +:+ b).
    apply rstrip_app_blank. exact Hb.
Qed.

Lemma strip_between_blanks (a s b : string) :
  isempty (rstrip a) = true -> isempty (rstrip b) = true ->
  strip (a +:+ (s +:+ b)) = strip s.
Proof.
  intros Ha Hb. unfold strip. rewrite (lstrip_app_blank _ _ Ha).
  exact (strip_app_blank s b Hb).
Qed.

(** White space around the code does not count: with any run of blank
    characters before it and after it (line ends, tabs, spaces), a code is
    executed by the Python executor and by the shell executor exactly as
    it is without them. *)
Theorem executors_ignore_outer_blanks (a code b : string) (ask : bool) :
  isempty (rstrip a) = true ->
  isempty (rstrip b) = true ->
  _execute_python (H := H) (a +:+ (code +:+ b)) ask = _execute_python code ask
  /\ _execute_shell (H := H) (a +:+ (code +:+ b)) ask = _execute_shell code ask.
Proof.
  intros Ha Hb. pose proof (strip_between_blanks a code b Ha Hb) as Hs. split.
  - unfold _execute_python. rewrite Hs. reflexivity.
  - unfold _execute_shell. rewrite Hs. reflexivity.
Qed.

End BlankFacts.

Lemma executors_ignore_outer_blanks_witness :
  _execute_python (H := MiniPy.host) ((nl +:+ "  ") +:+ ("x = 1" +:+ (" " +:+ nl))) true
  = _execute_python "x = 1" true
  /\ _execute_shell (H := MiniPy.host) ((nl +:+ "  ") +:+ ("x = 1" +:+ (" " +:+ nl))) true
     = _execute_shell "x = 1" true.
Proof.
  apply (executors_ignore_outer_blanks (H := MiniPy.host)
           (nl +:+ "  ") "x = 1" (" " +:+ nl) true); reflexivity.
Defined.
